(** * AIOps insights backend: the agentic query loop

    A shallow embedding of the backend's query path and the properties of
    its PLAN/ACT loop:

    - [backend/models.py]                    result artifacts and options
    - [backend/state.py]                     the session registry
    - [backend/services/llm_flow/utils.py]   the tabular store adapter
    - [backend/services/llm_flow/toolkit.py] the tool registry
    - [backend/services/llm_flow/nodes.py]   planning and execution steps
    - [backend/services/llm_flow/graph.py]   the query graph
    - [backend/api/query/router.py]          the query and direct SQL boundaries

    Python [str] values are modelled as [string] whose characters are the
    code points 0..255; the relational engine, the schema inspector and the
    chat model are collaborators outside the repository and appear as the
    operations of the class [External], acting on an abstract [World].
    Two rules of the libraries decide what the code does and are written
    out: pydantic refuses an assignment to an attribute that is not a
    declared field of a model, and [json.dumps] refuses a [bytes]
    value. *)

From Stdlib Require Import ZArith Ascii.
From stdpp Require Import base strings list gmap pretty.

(** ** Python string primitives *)

Module Py.

Definition nl : string := String (ascii_of_nat 10) EmptyString.

(** [str.isspace] on the code points below 256 (the set [str.strip] removes). *)
Definition is_space (c : ascii) : bool :=
  let n := nat_of_ascii c in
  ((9 <=? n) && (n <=? 13)) || ((28 <=? n) && (n <=? 32))
  || (n =? 133) || (n =? 160).

Fixpoint lstrip (s : string) : string :=
  match s with
  | EmptyString => EmptyString
  | String c r => if is_space c then lstrip r else s
  end.

Fixpoint rstrip (s : string) : string :=
  match s with
  | EmptyString => EmptyString
  | String c r =>
      match rstrip r with
      | EmptyString => if is_space c then EmptyString else String c EmptyString
      | r' => String c r'
      end
  end.

(** [s.strip()] *)
Definition strip (s : string) : string := rstrip (lstrip s).

(** [s.split(sep)] for a one-character separator. *)
Fixpoint split (sep : ascii) (s : string) : list string :=
  match s with
  | EmptyString => [EmptyString]
  | String c r =>
      if Ascii.eqb c sep then EmptyString :: split sep r
      else match split sep r with
           | [] => [String c EmptyString]
           | h :: t => String c h :: t
           end
  end.

(** [sep.join(l)] *)
Fixpoint join (sep : string) (l : list string) : string :=
  match l with
  | [] => EmptyString
  | [x] => x
  | x :: rest => x +:+ sep +:+ join sep rest
  end.

(** [str.lower] on the code points below 256: A-Z and the accented
    capitals 0xC0-0xDE (0xD7, the multiplication sign, apart). *)
Definition lower_char (c : ascii) : ascii :=
  let n := nat_of_ascii c in
  if ((65 <=? n) && (n <=? 90))
     || ((192 <=? n) && (n <=? 222) && negb (n =? 215))
  then ascii_of_nat (n + 32) else c.

Fixpoint lower (s : string) : string :=
  match s with
  | EmptyString => EmptyString
  | String c r => String (lower_char c) (lower r)
  end.

Fixpoint startswith (p s : string) : bool :=
  match p, s with
  | EmptyString, _ => true
  | String a p', String b s' => Ascii.eqb a b && startswith p' s'
  | String _ _, EmptyString => false
  end.

(** [needle in hay] *)
Fixpoint contains (needle hay : string) : bool :=
  startswith needle hay
  || match hay with
     | EmptyString => false
     | String _ t => contains needle t
     end.

(** truthiness of a [str] *)
Definition truthy (s : string) : bool :=
  match s with EmptyString => false | String _ _ => true end.

(** [str(x)] for an [Optional[str]] *)
Definition str_opt (o : option string) : string :=
  match o with Some s => s | None => "None" end.

(** [s] between double quotes *)
Definition quoted (s : string) : string :=
  String (ascii_of_nat 34) (s +:+ String (ascii_of_nat 34) EmptyString).

End Py.

(** ** JSON values: tool-call arguments and message extras

    Scalars are kept as values; an array or object is kept as its
    serialised text ([JOther]), which no code path below looks into. *)

Inductive json :=
| JNull
| JBool (b : bool)
| JNum (n : Z)
| JStr (s : string)
| JOther (raw : string).

(** ** Exceptions and results *)

Inductive exn :=
| KeyError (key : string)
| IndexError
| ValidationError (text : string)
| RuntimeError (text : string)
| HTTPException (status_code : Z) (detail : string)
| DatabaseError (text : string)
| UpstreamError (text : string)
| ValueError (text : string)
| TypeError (text : string).

Inductive result (A : Type) :=
| Ok (a : A)
| Raise (e : exn).
Arguments Ok {A} a.
Arguments Raise {A} e.

(** [str(e)] *)
Definition str_exn (e : exn) : string :=
  match e with
  | KeyError key => "'" +:+ key +:+ "'"
  | IndexError => "list index out of range"
  | ValidationError text => text
  | RuntimeError text => text
  | HTTPException status_code detail => pretty status_code +:+ ": " +:+ detail
  | DatabaseError text => text
  | UpstreamError text => text
  | ValueError text => text
  | TypeError text => text
  end.

(** ** backend/models.py *)

Record QueryOptions := mkQueryOptions {
  secure_data : bool;
  openai_api_key : option string;
  openai_base_url : option string;
  llm_model : string
}.

(** [QueryOptions(secure_data=...)]: the other fields take their defaults. *)
Definition QueryOptions_new (secure : bool) : QueryOptions :=
  mkQueryOptions secure None None "gpt-4o-mini".

(** A scalar of the relational engine (its five storage classes; a REAL is
    kept as its 64-bit pattern). *)
Inductive SqlValue :=
| SqlNull
| SqlInteger (n : Z)
| SqlReal (bits : Z)
| SqlText (s : string)
| SqlBlob (b : string).

(** A result artifact: the [dict] that [model_dump()] makes of one of the
    three result models, told apart by its ["type"] entry. *)
Inductive Artifact :=
| SQL_QUERY_STRING_RESULT (sql : string) (for_chart : bool)
| SQL_QUERY_RUN_RESULT (columns : list string) (rows : list (list SqlValue))
    (for_chart : bool) (linked_id : option string)
| CHART_GENERATION_RESULT (chartjs_json chart_type : string)
    (linked_id : option string).

Definition SQLQueryStringResult (sql : string) (for_chart : bool) : Artifact :=
  SQL_QUERY_STRING_RESULT sql for_chart.

Definition SQLQueryRunResult (columns : list string)
    (rows : list (list SqlValue)) (for_chart : bool) : Artifact :=
  SQL_QUERY_RUN_RESULT columns rows for_chart None.

Definition is_sql_text (a : Artifact) : bool :=
  match a with SQL_QUERY_STRING_RESULT _ _ => true | _ => false end.

Definition is_sql_run (a : Artifact) : bool :=
  match a with SQL_QUERY_RUN_RESULT _ _ _ _ => true | _ => false end.

(** ** Messages (langchain_core.messages) *)

Inductive MessageType := type_human | type_ai | type_tool.

Record ToolCall := mkToolCall {
  tc_name : string;
  tc_args : gmap string json;
  tc_id : option string
}.

Record BaseMessage := mkMessage {
  msg_type : MessageType;
  content : string;
  additional_kwargs : gmap string json;
  tool_calls : list ToolCall;
  msg_name : option string;
  tool_call_id : option string
}.

Definition HumanMessage (text : string) : BaseMessage :=
  mkMessage type_human text ∅ [] None None.

Definition ToolMessage (text name call_id : string) : BaseMessage :=
  mkMessage type_tool text ∅ [] (Some name) (Some call_id).

(** ** Collaborators outside the repository *)

(** One entry of the inspector's column listing: [c['name']] and
    [c.get('type')] as text. *)
Record ColumnInfo := mkColumn {
  col_name : string;
  col_type : option string
}.

(** [ChatOpenAI(model=..., base_url=..., api_key=..., temperature=0)] *)
Record ChatOpenAI := mkChatOpenAI {
  chat_model : string;
  chat_base_url : option string;
  chat_api_key : option string;
  chat_temperature : Z
}.

(** [convert_to_openai_function(t)]: what the model is told about a tool. *)
Record ToolDecl := mkToolDecl {
  fn_name : string;
  fn_description : string;
  fn_parameters : list string
}.

(** The relational engine with its inspector, the chat model and the two
    library renderings the code relies on. Every operation may change the
    world and may raise. *)
Class External := {
  Engine : Type;
  World : Type;
  inspector_get_table_names :
    Engine -> World -> World * result (list string);
  inspector_get_columns :
    Engine -> string -> World -> World * result (list ColumnInfo);
  (** [with engine.begin() as conn: conn.execute(text(q))], [fetchall()]
      and [keys()]: one transaction, committed or rolled back. *)
  engine_execute :
    Engine -> string -> World ->
    World * result (list string * list (list SqlValue));
  (** [ChatOpenAI(...)]: building the client, which raises when no API
      key is given or found in the environment *)
  chat_client : ChatOpenAI -> result unit;
  (** [model.bind_tools(tools).invoke(messages)] *)
  chat_invoke :
    ChatOpenAI -> list ToolDecl -> list BaseMessage -> World ->
    World * result BaseMessage;
  (** the text of a pydantic validation error on a field *)
  validation_error_text : string -> string;
  (** [str(l)] for a list of [str] *)
  str_of_list : list string -> string
}.

(** ** Effects: a store threaded through calls, and exceptions *)

Definition M (S A : Type) : Type := S -> S * result A.

Definition ret {S A} (a : A) : M S A := fun s => (s, Ok a).

Definition raise {S A} (e : exn) : M S A := fun s => (s, Raise e).

Definition of_result {S A} (r : result A) : M S A := fun s => (s, r).

Definition bind {S A B} (m : M S A) (k : A -> M S B) : M S B :=
  fun s =>
    match m s with
    | (s', Ok a) => k a s'
    | (s', Raise e) => (s', Raise e)
    end.

(** [try: body except Exception as e: handler(e)] *)
Definition try_except {S A} (body : M S A) (handler : exn -> M S A) : M S A :=
  fun s =>
    match body s with
    | (s', Ok a) => (s', Ok a)
    | (s', Raise e) => handler e s'
    end.

Notation "'let*' x := m 'in' k" := (bind m (fun x => k))
  (at level 10, x pattern, m at level 100, k at level 200).

Section Backend.
Context `{External}.

(** *** backend/state.py *)

Record SessionStore := mkSessionStore { _engines : gmap string Engine }.

Definition SessionStore_new : SessionStore := mkSessionStore ∅.

Definition add_session (self : SessionStore) (session_id : string)
    (engine : Engine) : SessionStore :=
  mkSessionStore (<[session_id := engine]> (_engines self)).

Definition get_engine (self : SessionStore) (session_id : string)
    : option Engine :=
  _engines self !! session_id.

(** *** The tools and the store of a query service *)

Inductive Tool :=
| ListTablesTool (db : Engine)
| InfoTablesTool (db : Engine)
| ExecuteSQLTool (db : Engine).

Definition tool_name (t : Tool) : string :=
  match t with
  | ListTablesTool _ => "list_sql_tables"
  | InfoTablesTool _ => "sql_db_schema"
  | ExecuteSQLTool _ => "sql_db_query"
  end.

Definition tool_description (t : Tool) : string :=
  match t with
  | ListTablesTool _ =>
      "Return a comma-separated list of tables in the database"
  | InfoTablesTool _ =>
      "Get schema and sample rows for the specified tables"
  | ExecuteSQLTool _ => "Execute a SQL query and return rows + columns"
  end.

Definition args_schema (t : Tool) : list string :=
  match t with
  | ListTablesTool _ => ["tool_input"]
  | InfoTablesTool _ => ["table_names"]
  | ExecuteSQLTool _ => ["query"; "for_chart"]
  end.

(** [isinstance(tool, StateUpdaterTool)] *)
Definition is_StateUpdaterTool (t : Tool) : bool :=
  match t with
  | ListTablesTool _ => false
  | InfoTablesTool _ | ExecuteSQLTool _ => true
  end.

Definition convert_to_openai_function (t : Tool) : ToolDecl :=
  mkToolDecl (tool_name t) (tool_description t) (args_schema t).

(** What the steps of a query act on besides the outside world: the
    [tool_map] attribute of the toolkit object the graph state's
    [sql_toolkit] refers to, which the execution step reads. The
    constructor of the toolkit and [get_tools] are the two places that
    assign it, see [set_tool_map]. *)
Record Store := mkStore {
  world : World;
  tool_map : gmap string Tool
}.

Definition external {A} (op : World -> World * result A) : M Store A :=
  fun s => let (w, r) := op (world s) in (mkStore w (tool_map s), r).

(** *** backend/services/llm_flow/utils.py *)

Definition get_table_names (db : Engine) : M Store (list string) :=
  external (inspector_get_table_names db).

Definition render_column (c : ColumnInfo) : string :=
  col_name c +:+ " " +:+ Py.str_opt (col_type c).

Definition render_table (name : string) (cols : list ColumnInfo) : string :=
  "CREATE TABLE " +:+ name +:+ " ("
    +:+ Py.join ", " (map render_column cols) +:+ ")".

(** The [for name in table_names] loop, [infos] being the list so far. *)
Fixpoint get_table_info_loop (db : Engine) (table_names : list string)
    (infos : list string) : M Store (list string) :=
  match table_names with
  | [] => ret infos
  | name :: rest =>
      let* cols := external (inspector_get_columns db name) in
      get_table_info_loop db rest (infos ++ [render_table name cols])
  end.

Definition get_table_info (db : Engine) (table_names : list string)
    : M Store string :=
  let* infos := get_table_info_loop db table_names [] in
  ret (Py.join (Py.nl +:+ Py.nl) infos).

Definition run_sql (db : Engine) (query : string)
    : M Store (list string * list (list SqlValue)) :=
  external (engine_execute db query).

(** *** backend/services/llm_flow/toolkit.py *)

(** [SQLDatabaseToolkit] is a pydantic model ([BaseToolkit] is one) whose
    class body declares one field. *)
Record SQLDatabaseToolkit := mkToolkit { toolkit_db : Engine }.

Definition SQLDatabaseToolkit_fields : list string := ["db"].

(** pydantic's [BaseModel.__setattr__], for a public attribute of a model
    that allows no extra attributes: a name that is not a declared field
    is refused. *)
Definition no_field_text (cls name : string) : string :=
  Py.quoted cls +:+ " object has no field " +:+ Py.quoted name.

Definition pydantic_setattr (cls : string) (fields : list string)
    (name : string) : result unit :=
  if bool_decide (name ∈ fields) then Ok tt
  else Raise (ValueError (no_field_text cls name)).

(** [self.tool_map = value] on a toolkit *)
Definition set_tool_map (value : gmap string Tool) : M Store unit :=
  fun s =>
    match pydantic_setattr "SQLDatabaseToolkit" SQLDatabaseToolkit_fields
            "tool_map" with
    | Ok _ => (mkStore (world s) value, Ok tt)
    | Raise e => (s, Raise e)
    end.

(** [SQLDatabaseToolkit(db=db)]: [super().__init__(db=db)], then
    [self.tool_map = {}] (an assignment that went through would leave the
    empty map of [new_store]). *)
Definition SQLDatabaseToolkit_new (db : Engine) : result SQLDatabaseToolkit :=
  let self := mkToolkit db in
  match pydantic_setattr "SQLDatabaseToolkit" SQLDatabaseToolkit_fields
          "tool_map" with
  | Ok _ => Ok self
  | Raise e => Raise e
  end.

Record QueryGraphState := mkState {
  messages : list BaseMessage;
  results : list Artifact;
  options : QueryOptions;
  sql_toolkit : SQLDatabaseToolkit;
  user_query : string
}.

Record QueryGraphStateUpdate := mkUpdate {
  upd_messages : list BaseMessage;
  upd_results : list Artifact
}.

Definition state_update (new_messages : list BaseMessage)
    (new_results : list Artifact) : QueryGraphStateUpdate :=
  mkUpdate new_messages new_results.

(** pydantic's validation of a [str] field *)
Definition validate_str (field : string) (v : json) : result string :=
  match v with
  | JStr s => Ok s
  | _ => Raise (ValidationError (validation_error_text field))
  end.

(** pydantic's validation of a [bool] field: booleans, 0 and 1, and the
    words it reads as booleans, in any case. *)
Definition validate_bool (field : string) (v : json) : result bool :=
  match v with
  | JBool b => Ok b
  | JNum 0 => Ok false
  | JNum 1 => Ok true
  | JStr s =>
      if bool_decide (Py.lower s ∈ ["0"; "off"; "f"; "false"; "n"; "no"])
      then Ok false
      else if bool_decide (Py.lower s ∈ ["1"; "on"; "t"; "true"; "y"; "yes"])
      then Ok true
      else Raise (ValidationError (validation_error_text field))
  | _ => Raise (ValidationError (validation_error_text field))
  end.

(** A field with a default: validated only when the argument is given. *)
Definition validate_default {A} (validate : string -> json -> result A)
    (field : string) (dflt : A) (args : gmap string json) : result A :=
  match args !! field with
  | None => Ok dflt
  | Some v => validate field v
  end.

Definition validate_required {A} (validate : string -> json -> result A)
    (field : string) (args : gmap string json) : result A :=
  match args !! field with
  | None => Raise (ValidationError (validation_error_text field))
  | Some v => validate field v
  end.

(** [ListTablesTool.run(args)]: the arguments are validated against
    [_ListTablesInput], then [_run] lists the tables. *)
Definition ListTablesTool_run (db : Engine) (args : gmap string json)
    : M Store (list string) :=
  let* _ := of_result (validate_default validate_str "tool_input"
                         EmptyString args) in
  get_table_names db.

(** [names = [t.strip() for t in table_names.split(",") if t.strip()]] *)
Fixpoint stripped_names (segments : list string) : list string :=
  match segments with
  | [] => []
  | t :: rest =>
      if Py.truthy (Py.strip t) then Py.strip t :: stripped_names rest
      else stripped_names rest
  end.

Definition InfoTablesTool__run (db : Engine) (table_names : string)
    : M Store string :=
  let names := stripped_names (Py.split "," table_names) in
  get_table_info db names.

Definition InfoTablesTool_run (db : Engine) (args : gmap string json)
    : M Store string :=
  let* table_names :=
    of_result (validate_required validate_str "table_names" args) in
  InfoTablesTool__run db table_names.

Definition InfoTablesTool_get_response (db : Engine)
    (state : QueryGraphState) (args : gmap string json) (call_id : string)
    : M Store QueryGraphStateUpdate :=
  let* response := InfoTablesTool_run db args in
  let tool_message := ToolMessage response "sql_db_schema" call_id in
  ret (state_update [tool_message] []).

Definition ExecuteSQLTool__run (db : Engine) (query : string)
    (for_chart : bool)
    : M Store (list string * list (list SqlValue) * bool) :=
  let* (cols, rows) := run_sql db query in
  ret (cols, rows, for_chart).

Definition ExecuteSQLTool_run (db : Engine) (args : gmap string json)
    : M Store (list string * list (list SqlValue) * bool) :=
  let* query := of_result (validate_required validate_str "query" args) in
  let* for_chart :=
    of_result (validate_default validate_bool "for_chart" false args) in
  ExecuteSQLTool__run db query for_chart.

Definition success_text : string :=
  "Query executed successfully. "
  +:+ "I cannot display raw data if secure mode is enabled; describe it instead.".

Definition ExecuteSQLTool_get_response (db : Engine)
    (state : QueryGraphState) (args : gmap string json) (call_id : string)
    : M Store QueryGraphStateUpdate :=
  let* sql :=
    match args !! "query" with
    | None => raise (KeyError "query")
    | Some v => of_result (validate_str "sql" v)
    end in
  let* chart :=
    of_result (validate_bool "for_chart"
                 (default (JBool false) (args !! "for_chart"))) in
  let sql_result := SQLQueryStringResult sql chart in
  try_except
    (let* (cols, rows, for_chart) := ExecuteSQLTool_run db args in
     let run_result :=
       SQLQueryRunResult cols (map (fun r => r) rows) for_chart in
     let tool_message := ToolMessage success_text "sql_db_query" call_id in
     ret (state_update [tool_message] [sql_result; run_result]))
    (fun e =>
       let tool_message :=
         ToolMessage ("ERROR: " +:+ str_exn e) "sql_db_query" call_id in
       ret (state_update [tool_message] [sql_result])).

(** [SQLDatabaseToolkit.get_tools]: builds the tools, assigns the
    name-to-tool map to [self.tool_map] and returns the tools. *)
Definition get_tools (self : SQLDatabaseToolkit) (allow_execution : bool)
    : M Store (list Tool) :=
  let list_tables := ListTablesTool (toolkit_db self) in
  let info_tables := InfoTablesTool (toolkit_db self) in
  let execute := ExecuteSQLTool (toolkit_db self) in
  let tools :=
    [list_tables; info_tables]
      ++ (if allow_execution then [execute] else []) in
  let* _ := set_tool_map (foldl (fun m t => <[tool_name t := t]> m) ∅ tools) in
  ret tools.

(** *** backend/services/llm_flow/prompt.py *)

Definition SYSTEM_PROMPT : string :=
  "You are a helpful data analyst. Generate valid SQL for SQLite over table 'data'. "
  +:+ "Use only supported SQL (SELECT, WHERE, GROUP BY, ORDER BY, COUNT, SUM, AVG, MIN, MAX). "
  +:+ "The table name is data. When filtering on a column with a string/text data type, "
  +:+ "you MUST enclose the value in single quotes (e.g., WHERE column_name = 'value'). "
  +:+ "Return function calls only; never return raw SQL in free text.".

(** *** backend/services/llm_flow/nodes.py *)

(** [CallModelNode.__name__] and [CallToolNode.__name__], read on the
    classes: the name of a class is kept by [type], whose attribute wins
    over the [__name__] entries of the class bodies ("call_model",
    "perform_action"). *)
Definition CallModelNode_name : string := "CallModelNode".
Definition CallToolNode_name : string := "CallToolNode".

(** langgraph's [END] *)
Definition END : string := "__end__".

(** [ChatOpenAI(model=..., base_url=..., api_key=..., temperature=0)] *)
Definition ChatOpenAI_new (model : string) (base_url api_key : option string)
    (temperature : Z) : result ChatOpenAI :=
  let self := mkChatOpenAI model base_url api_key temperature in
  match chat_client self with
  | Ok _ => Ok self
  | Raise e => Raise e
  end.

(** [CallModelNode.run]. Binding the tool declarations and invoking the
    model are the one outside call [chat_invoke]. *)
Definition CallModelNode_run (state : QueryGraphState)
    : M Store QueryGraphStateUpdate :=
  let* model :=
    of_result (ChatOpenAI_new (llm_model (options state))
                 (openai_base_url (options state))
                 (openai_api_key (options state)) 0) in
  let* tool_list := get_tools (sql_toolkit state) true in
  let tools := map convert_to_openai_function tool_list in
  let prompt :=
    [HumanMessage (SYSTEM_PROMPT +:+ Py.nl +:+ Py.nl +:+ user_query state)] in
  let* response := external (chat_invoke model tools prompt) in
  ret (state_update [response] []).

(** [state.messages[-1]] *)
Definition last_message (state : QueryGraphState) : M Store BaseMessage :=
  match last (messages state) with
  | Some m => ret m
  | None => raise IndexError
  end.

(** [state.sql_toolkit.tool_map[name]] *)
Definition lookup_tool (name : string) : M Store Tool :=
  fun s =>
    match tool_map s !! name with
    | Some t => (s, Ok t)
    | None => (s, Raise (KeyError name))
    end.

(** The body of the [for tool_call in last_ai.tool_calls] loop, on the
    two local lists [output_messages] and [results]. The first two
    branches are the [isinstance(tool, StateUpdaterTool)] case. *)
Definition call_tool (state : QueryGraphState) (tool_call : ToolCall)
    (acc : list BaseMessage * list Artifact)
    : M Store (list BaseMessage * list Artifact) :=
  let (output_messages, results) := acc in
  let call_id := Py.str_opt (tc_id tool_call) in
  let* tool := lookup_tool (tc_name tool_call) in
  match tool with
  | InfoTablesTool db =>
      let* updates :=
        InfoTablesTool_get_response db state (tc_args tool_call) call_id in
      ret (output_messages ++ upd_messages updates,
           results ++ upd_results updates)
  | ExecuteSQLTool db =>
      let* updates :=
        ExecuteSQLTool_get_response db state (tc_args tool_call) call_id in
      ret (output_messages ++ upd_messages updates,
           results ++ upd_results updates)
  | ListTablesTool db =>
      let* resp := ListTablesTool_run db (tc_args tool_call) in
      ret (output_messages
             ++ [ToolMessage (str_of_list resp) (tc_name tool_call) call_id],
           results)
  end.

Fixpoint call_tools (state : QueryGraphState) (calls : list ToolCall)
    (acc : list BaseMessage * list Artifact)
    : M Store (list BaseMessage * list Artifact) :=
  match calls with
  | [] => ret acc
  | tool_call :: rest =>
      let* acc' := call_tool state tool_call acc in
      call_tools state rest acc'
  end.

Definition CallToolNode_run (state : QueryGraphState)
    : M Store QueryGraphStateUpdate :=
  let* last_ai := last_message state in
  let* (output_messages, results) :=
    call_tools state (tool_calls last_ai) ([], []) in
  ret (state_update output_messages results).

Definition ShouldCallToolCondition_run (state : QueryGraphState)
    : M Store string :=
  let* last := last_message state in
  match additional_kwargs last !! "tool_calls" with
  | None => ret END
  | Some _ => ret CallToolNode_name
  end.

(** *** backend/services/llm_flow/graph.py *)

Record StateGraph := mkGraph {
  nodes : gmap string (QueryGraphState -> M Store QueryGraphStateUpdate);
  branches : gmap string (QueryGraphState -> M Store string);
  edges : gmap string string;
  entry_point : option string
}.

Definition StateGraph_new : StateGraph := mkGraph ∅ ∅ ∅ None.

Definition add_node (name : string)
    (action : QueryGraphState -> M Store QueryGraphStateUpdate)
    (g : StateGraph) : StateGraph :=
  mkGraph (<[name := action]> (nodes g)) (branches g) (edges g)
    (entry_point g).

Definition add_conditional_edges (source : string)
    (path : QueryGraphState -> M Store string) (g : StateGraph)
    : StateGraph :=
  mkGraph (nodes g) (<[source := path]> (branches g)) (edges g)
    (entry_point g).

Definition add_edge (start_key end_key : string) (g : StateGraph)
    : StateGraph :=
  mkGraph (nodes g) (branches g) (<[start_key := end_key]> (edges g))
    (entry_point g).

Definition set_entry_point (key : string) (g : StateGraph) : StateGraph :=
  mkGraph (nodes g) (branches g) (edges g) (Some key).

Definition build_graph : StateGraph :=
  let graph := StateGraph_new in
  let graph := add_node CallModelNode_name CallModelNode_run graph in
  let graph := add_node CallToolNode_name CallToolNode_run graph in
  let graph :=
    add_conditional_edges CallModelNode_name ShouldCallToolCondition_run
      graph in
  let graph := add_edge CallToolNode_name CallModelNode_name graph in
  let graph := set_entry_point CallModelNode_name graph in
  graph.

(** **** Running a compiled graph

    [StateGraph(QueryGraphState)] makes one channel per field of the
    state class. [QueryGraphState] declares [messages] and [results] as
    plain fields ([Sequence[BaseMessage]], [list[dict]]), with no reducer
    annotation, so each channel keeps the last value written: a node's
    update replaces both fields, and the other fields stay. *)
Definition fold_update (state : QueryGraphState)
    (update : QueryGraphStateUpdate) : QueryGraphState :=
  mkState (upd_messages update) (upd_results update) (options state)
    (sql_toolkit state) (user_query state).

(** The node to run after [node]: its conditional edge, read on the state
    the node has just written, or else its plain edge. *)
Definition next_node (g : StateGraph) (node : string)
    (state : QueryGraphState) : M Store string :=
  match branches g !! node with
  | Some path => path state
  | None => ret (default END (edges g !! node))
  end.

(** One step of the graph: run [node], fold its update into the state,
    pick the successor. The step's chunk is the node's name with its
    update. *)
Definition superstep (g : StateGraph) (node : string)
    (state : QueryGraphState)
    : M Store ((string * QueryGraphStateUpdate) * QueryGraphState * string) :=
  let* action :=
    match nodes g !! node with
    | Some action => ret action
    | None => raise (KeyError node)
    end in
  let* update := action state in
  let state' := fold_update state update in
  let* next := next_node g node state' in
  ret ((node, update), state', next).

(** How a generator ends when it is run to its end: it returns (the
    graph reached [END]), an exception of a step leaves it, or the
    runtime, out of steps, raises its [GraphRecursionError]. *)
Inductive Ending :=
| Finished
| Aborted (e : exn)
| OutOfSteps.

(** What a generator does when it is run to its end: the values it
    yields, each with the store at the moment of the yield, which is
    where a consumer that stops iterating there leaves it; then the store
    at the end and the ending. *)
Definition Yields (A : Type) : Type := list (Store * A).

(** [app.astream(state)] from [node] on, the recursion limit of the
    runtime leaving [fuel] steps. At each step the runtime tests the
    limit, then looks for a node to run (none: the run is done), then runs
    it and yields its chunk. The result holds the chunks in order, the
    state reached and the ending. *)
Fixpoint astream_from (fuel : nat) (g : StateGraph) (node : string)
    (state : QueryGraphState) (s : Store)
    : Store * (Yields (string * QueryGraphStateUpdate) * QueryGraphState
               * Ending) :=
  match fuel with
  | O => (s, ([], state, OutOfSteps))
  | S fuel' =>
      if bool_decide (node = END) then (s, ([], state, Finished))
      else
        match superstep g node state s with
        | (s', Raise e) => (s', ([], state, Aborted e))
        | (s', Ok (chunk, state', next)) =>
            let '(s'', (chunks, final, ending)) :=
              astream_from fuel' g next state' s' in
            (s'', ((s', chunk) :: chunks, final, ending))
        end
  end.

Definition astream (fuel : nat) (g : StateGraph) (state : QueryGraphState)
    (s : Store)
    : Store * (Yields (string * QueryGraphStateUpdate) * QueryGraphState
               * Ending) :=
  match entry_point g with
  | Some node => astream_from fuel g node state s
  | None => (s, ([], state, Aborted (KeyError "__start__")))
  end.

Record QueryGraphService := mkService {
  service_db : Engine;
  toolkit : SQLDatabaseToolkit
}.

(** [QueryGraphService(engine)]: the adapter keeps the engine, then the
    toolkit is built. *)
Definition QueryGraphService_new (engine : Engine)
    : result QueryGraphService :=
  let db := engine in
  match SQLDatabaseToolkit_new db with
  | Ok toolkit => Ok (mkService db toolkit)
  | Raise e => Raise e
  end.

(** A store on the world [w] whose tool map is the empty [dict]. *)
Definition new_store (w : World) : Store := mkStore w ∅.

Definition _initial_messages (user_query : string)
    (history : option (list BaseMessage)) : list BaseMessage := [].

Definition initial_state (self : QueryGraphService) (query : string)
    (opts : QueryOptions) : QueryGraphState :=
  mkState (_initial_messages query None) [] opts (toolkit self) query.

(** [QueryGraphService.query]: what the generator yields, one pair per
    chunk, and how it ends. *)
Definition QueryGraphService_query (self : QueryGraphService)
    (query : string) (opts : QueryOptions) (fuel : nat) (s : Store)
    : Store * (Yields (option (list BaseMessage) * option (list Artifact))
               * Ending) :=
  let graph := build_graph in
  let '(s', (chunks, _, ending)) :=
    astream fuel graph (initial_state self query opts) s in
  (s', (map (fun chunk : Store * (string * QueryGraphStateUpdate) =>
               (fst chunk,
                (Some (upd_messages (snd (snd chunk))),
                 Some (upd_results (snd (snd chunk)))))) chunks,
        ending)).

(** *** backend/api/query/router.py *)

(** The [data] of an event: a result artifact, or [{"ok": True}]. *)
Inductive SSEData :=
| data_artifact (r : Artifact)
| data_ok.

(** An event as it is put on the wire: its name and its data, the JSON
    text of the data being left to [json.dumps]. *)
Record SSE := mkSSE { sse_event : string; sse_data : SSEData }.

(** What [json.dumps] accepts of a scalar of the engine: [None], [int],
    [float] and [str], not [bytes]. *)
Definition json_serializable (v : SqlValue) : bool :=
  match v with
  | SqlBlob _ => false
  | _ => true
  end.

Definition dumps_accepts (data : SSEData) : bool :=
  match data with
  | data_artifact (SQL_QUERY_RUN_RESULT _ rows _ _) =>
      forallb (forallb json_serializable) rows
  | _ => true
  end.

(** [to_sse(event, data)] *)
Definition to_sse (event : string) (data : SSEData) : result SSE :=
  if dumps_accepts data then Ok (mkSSE event data)
  else Raise (TypeError "Object of type bytes is not JSON serializable").

(** [for r in results: yield to_sse("ADD_RESULT", r)]: the events
    yielded, and the exception that ended the loop if one did. *)
Fixpoint add_result_events (results : list Artifact)
    : list SSE * option exn :=
  match results with
  | [] => ([], None)
  | r :: rest =>
      match to_sse "ADD_RESULT" (data_artifact r) with
      | Ok event =>
          let (events, raised) := add_result_events rest in
          (event :: events, raised)
      | Raise e => ([], Some e)
      end
  end.

(** The body of the [async for] of [stream()] on one yielded pair:
    [if results: for r in results: ...]. *)
Definition result_events
    (item : option (list BaseMessage) * option (list Artifact))
    : list SSE * option exn :=
  match snd item with
  | Some (r :: rs) => add_result_events (r :: rs)
  | _ => ([], None)
  end.

(** The generator [stream()] run on what [query_service.query(...)]
    yields: the events it yields, the store it leaves and how it ends. An
    exception of [to_sse] leaves [stream()], and the generator of the
    service is not resumed: the store is the one of its last yield. Once
    the service has returned, [END] is yielded. *)
Fixpoint stream_events
    (items : Yields (option (list BaseMessage) * option (list Artifact)))
    (s : Store) (ending : Ending) : Store * (list SSE * Ending) :=
  match items with
  | [] =>
      match ending with
      | Finished =>
          match to_sse "END" data_ok with
          | Ok event => (s, ([event], Finished))
          | Raise e => (s, ([], Aborted e))
          end
      | _ => (s, ([], ending))
      end
  | (s_yield, item) :: rest =>
      match result_events item with
      | (events, Some e) => (s_yield, (events, Aborted e))
      | (events, None) =>
          let '(s', (more, ending')) := stream_events rest s ending in
          (s', (events ++ more, ending'))
      end
  end.

(** The generator [stream()] of the query endpoint, the recursion limit
    leaving [fuel] steps to the loop. *)
Definition stream (query_service : QueryGraphService) (prompt : string)
    (secure_data : bool) (fuel : nat) (w : World)
    : World * (list SSE * Ending) :=
  let '(s, (items, ending)) :=
    QueryGraphService_query query_service prompt
      (QueryOptions_new secure_data) fuel (new_store w) in
  let '(s', out) := stream_events items s ending in
  (world s', out).

Definition StreamingResponse : Type :=
  nat -> World -> World * (list SSE * Ending).

(** [POST /query] *)
Definition query (session_store : SessionStore)
    (session_id prompt : string) (secure_data : bool)
    : result StreamingResponse :=
  match get_engine session_store session_id with
  | None => Raise (RuntimeError "Invalid session_id. Upload CSV first.")
  | Some engine =>
      match QueryGraphService_new engine with
      | Ok query_service => Ok (stream query_service prompt secure_data)
      | Raise e => Raise e
      end
  end.

(** The events a request puts on the wire. *)
Definition response_events (r : result StreamingResponse) (fuel : nat)
    (w : World) : list SSE :=
  match r with
  | Ok body => fst (snd (body fuel w))
  | Raise _ => []
  end.

Record ExecuteResponse := mkExecuteResponse {
  resp_columns : list string;
  resp_rows : list (list SqlValue);
  resp_for_chart : bool
}.

(** The [except Exception as e] branch of [execute_sql]. *)
Definition execute_sql_handler (e : exn) : exn :=
  let error_msg := str_exn e in
  if Py.contains "no such column" (Py.lower error_msg) then
    HTTPException 400 ("SQL Error: Column not found. " +:+ error_msg)
  else if Py.contains "syntax error" (Py.lower error_msg) then
    HTTPException 400 ("SQL Syntax Error: " +:+ error_msg)
  else
    HTTPException 500 ("SQL execution failed: " +:+ error_msg).

(** [POST /query/execute] *)
Definition execute_sql (session_store : SessionStore)
    (session_id sql : string) (for_chart : bool) (w : World)
    : World * result ExecuteResponse :=
  match get_engine session_store session_id with
  | None =>
      (w, Raise (HTTPException 400 "Invalid session_id. Upload CSV first."))
  | Some engine =>
      let (s, r) :=
        try_except
          (let* (columns, rows) := run_sql engine sql in
           let normalized := map (fun r => r) rows in
           ret (mkExecuteResponse columns normalized for_chart))
          (fun e => raise (execute_sql_handler e))
          (new_store w) in
      (world s, r)
  end.

(** *** Vocabulary of the properties *)

(** The tool map of a toolkit on [db]: the three tools by name, the
    [dict] that [get_tools()] builds. *)
Definition registry (db : Engine) : gmap string Tool :=
  foldl (fun m t => <[tool_name t := t]> m) ∅
    [ListTablesTool db; InfoTablesTool db; ExecuteSQLTool db].


(** The test [ShouldCallToolCondition] makes on a message:
    ["tool_calls" in last.additional_kwargs], the entry under which the
    chat client keeps the provider's payload. *)
Definition has_tool_calls_entry (m : BaseMessage) : bool :=
  bool_decide (is_Some (additional_kwargs m !! "tool_calls")).

(** A model message carries tool invocations, in the words of the
    specification: it has invocations for the execution step to run,
    the list [tool_calls] that [CallToolNode.run] goes through. Not the
    test the code makes; compared with [has_tool_calls_entry] below. *)
Definition carries_tool_invocations (m : BaseMessage) : bool :=
  match tool_calls m with
  | [] => false
  | _ :: _ => true
  end.

(** The exception a planning step on [state] ends with. *)
Definition planning_error (state : QueryGraphState) : exn :=
  match ChatOpenAI_new (llm_model (options state))
          (openai_base_url (options state))
          (openai_api_key (options state)) 0 with
  | Raise e => e
  | Ok _ => ValueError (no_field_text "SQLDatabaseToolkit" "tool_map")
  end.

(** The [ADD_RESULT] event of an artifact, and whether [json.dumps]
    accepts the artifact. *)
Definition add_result (r : Artifact) : SSE :=
  mkSSE "ADD_RESULT" (data_artifact r).

Definition serializable (r : Artifact) : bool :=
  dumps_accepts (data_artifact r).

(** The artifacts of the pairs a service yields, in order. *)
Definition yielded_artifacts
    (items : Yields (option (list BaseMessage) * option (list Artifact)))
    : list Artifact :=
  concat (map (fun item => default [] (snd (snd item))) items).

(** How many events of a kind a stream holds. *)
Definition count_events (kind : string) (events : list SSE) : nat :=
  length (List.filter (fun e => bool_decide (sse_event e = kind)) events).



(** The column lookups [get_table_info] makes, one per name, in order,
    stopping at the first that raises. *)
Fixpoint lookup_columns (db : Engine) (names : list string)
    : M Store (list (list ColumnInfo)) :=
  match names with
  | [] => ret []
  | name :: rest =>
      let* cols := external (inspector_get_columns db name) in
      let* more := lookup_columns db rest in
      ret (cols :: more)
  end.

(** A string made of commas and whitespace only. *)
Fixpoint only_commas_and_spaces (text : string) : bool :=
  match text with
  | EmptyString => true
  | String c r =>
      (Ascii.eqb c "," || Py.is_space c) && only_commas_and_spaces r
  end.

Fixpoint all_space (text : string) : bool :=
  match text with
  | EmptyString => true
  | String c r => Py.is_space c && all_space r
  end.

(** The three error categories of the direct SQL boundary, with the
    status and the message prefix each is raised with. *)
Inductive ErrorCategory := ColumnNotFound | SyntaxError | ExecutionFailure.

Definition category_status (c : ErrorCategory) : Z :=
  match c with
  | ColumnNotFound => 400
  | SyntaxError => 400
  | ExecutionFailure => 500
  end.

Definition category_prefix (c : ErrorCategory) : string :=
  match c with
  | ColumnNotFound => "SQL Error: Column not found. "
  | SyntaxError => "SQL Syntax Error: "
  | ExecutionFailure => "SQL execution failed: "
  end.

Definition category_error (c : ErrorCategory) (error_msg : string) : exn :=
  HTTPException (category_status c) (category_prefix c +:+ error_msg).

(** The category [execute_sql] picks: both tests read the lowercased
    message. *)
Definition error_category (error_msg : string) : ErrorCategory :=
  if Py.contains "no such column" (Py.lower error_msg) then ColumnNotFound
  else if Py.contains "syntax error" (Py.lower error_msg) then SyntaxError
  else ExecutionFailure.

(** The classification rule in the words of the specification: plain
    substring tests on the message. Not taken from the code; compared
    with [error_category] below. *)
Definition substring_rule (error_msg : string) : ErrorCategory :=
  if Py.contains "no such column" error_msg then ColumnNotFound
  else if Py.contains "syntax error" error_msg then SyntaxError
  else ExecutionFailure.

(** *** Vocabulary of the further properties *)

Definition is_finished (ending : Ending) : bool :=
  match ending with Finished => true | _ => false end.

(** A table name as the describe-schema tool hands it to the adapter:
    not empty, no blank at either end, no comma. *)
Definition clean_name (name : string) : bool :=
  Py.truthy name && bool_decide (Py.strip name = name)
  && negb (Py.contains "," name).

(** The tool message that answers an invocation: of the tool role and
    carrying the invocation's identifier. *)
Definition answers (tool_call : ToolCall) (m : BaseMessage) : Prop :=
  msg_type m = type_tool
  /\ tool_call_id m = Some (Py.str_opt (tc_id tool_call)).

End Backend.

(** ** backend/api/session/router.py

    The data frames and their operations belong to pandas, the engine
    factory to SQLAlchemy; both appear as the operations of the class
    [Ingestion]. The endpoints act on the process-wide session registry,
    which is part of the state threaded here. *)

(** What the first parse of an upload can do: return a frame, raise
    [UnicodeDecodeError], or raise another exception. *)
Inductive ParseOutcome (Frame : Type) :=
| Parsed (df : Frame)
| RaisedUnicodeDecodeError (text : string)
| RaisedOther (e : exn).
Arguments Parsed {Frame} df.
Arguments RaisedUnicodeDecodeError {Frame} text.
Arguments RaisedOther {Frame} e.

Class Ingestion `{External} := {
  DataFrame : Type;
  (** the [data] of a [LoadDataRequest] *)
  Records : Type;
  UploadFile : Type;
  (** [pd.DataFrame(request.data)] *)
  pd_DataFrame : Records -> result DataFrame;
  (** [await file.read()] *)
  file_read : UploadFile -> World -> World * result string;
  (** [pd.read_csv(io.BytesIO(content), encoding='utf-8')] *)
  read_csv_utf8 : string -> ParseOutcome DataFrame;
  (** [pd.read_csv(io.BytesIO(content), encoding='latin-1')] *)
  read_csv_latin1 : string -> result DataFrame;
  (** [pd.read_csv(..., encoding='utf-8', encoding_errors='replace',
      on_bad_lines='skip')] *)
  read_csv_forgiving : string -> result DataFrame;
  (** [df.empty] *)
  df_empty : DataFrame -> bool;
  (** [df.columns = df.columns.str.strip()] *)
  df_strip_columns : DataFrame -> result DataFrame;
  (** [df.where(pd.notnull(df), None)] *)
  df_where_notnull : DataFrame -> result DataFrame;
  (** [len(df)] and [list(df.columns)] *)
  df_len : DataFrame -> nat;
  df_columns : DataFrame -> list string;
  (** [str(uuid.uuid4())] *)
  uuid4 : World -> World * string;
  (** [Path(tempfile.gettempdir()) / "ai_analyst_sessions"], created if
      missing; the path as text *)
  make_sessions_dir : World -> World * result string;
  (** [create_engine(db_path)] *)
  create_engine : string -> World -> World * result Engine;
  (** [df.to_sql("data", engine, if_exists="replace", index=False)] *)
  df_to_sql : DataFrame -> string -> Engine -> World -> World * result unit
}.

Section SessionRouter.
Context `{Ingestion}.

(** The outside world together with the session registry of the
    process. *)
Record App := mkApp {
  app_world : World;
  session_store : SessionStore
}.

Definition outside {A} (op : World -> World * result A) : M App A :=
  fun a =>
    let (w, r) := op (app_world a) in (mkApp w (session_store a), r).

(** [session_store.add_session(session_id, engine)] *)
Definition register_session (session_id : string) (engine : Engine)
    : M App unit :=
  fun a =>
    (mkApp (app_world a) (add_session (session_store a) session_id engine),
     Ok tt).

Record SessionResponse := mkSessionResponse {
  resp_session_id : string;
  resp_row_count : nat;
  resp_column_names : list string
}.

(** The shared tail of both endpoints, from the empty check to the
    response; [empty_detail] is the message of the 400 error. *)
Definition store_frame (df : DataFrame) (empty_detail : string)
    : M App SessionResponse :=
  if df_empty df then raise (HTTPException 400 empty_detail)
  else
    let* df := of_result (df_strip_columns df) in
    let* df := of_result (df_where_notnull df) in
    let* session_id := outside (fun w => let (w', u) := uuid4 w in (w', Ok u)) in
    let* temp_dir := outside make_sessions_dir in
    let db_file := temp_dir +:+ "/" +:+ "session_" +:+ session_id +:+ ".db" in
    let db_path := "sqlite:///" +:+ db_file in
    let* engine := outside (create_engine db_path) in
    let* _ := outside (df_to_sql df "data" engine) in
    let* _ := register_session session_id engine in
    ret (mkSessionResponse session_id (df_len df) (df_columns df)).

(** [except HTTPException: raise] then [except Exception as e: raise
    HTTPException(status_code=500, detail=f"{prefix}{str(e)}")] *)
Definition reraise_as_http {A} (prefix : string) (body : M App A)
    : M App A :=
  try_except body
    (fun e =>
       match e with
       | HTTPException _ _ => raise e
       | _ => raise (HTTPException 500 (prefix +:+ str_exn e))
       end).

(** [POST /session/load] *)
Definition load_data (request : Records) : M App SessionResponse :=
  reraise_as_http "Data loading failed: "
    (let* df := of_result (pd_DataFrame request) in
     store_frame df "Data is empty").

(** The inner [try] of [upload_csv]: the second and third parse stand in
    the two [except] clauses of the first, so an exception of either
    leaves the inner [try]. *)
Definition parse_upload (content : string) : result DataFrame :=
  match read_csv_utf8 content with
  | Parsed df => Ok df
  | RaisedUnicodeDecodeError _ => read_csv_latin1 content
  | RaisedOther _ => read_csv_forgiving content
  end.

(** [POST /session/upload] *)
Definition upload_csv (file : UploadFile) : M App SessionResponse :=
  reraise_as_http "Upload failed: "
    (let* content := outside (file_read file) in
     let* df := of_result (parse_upload content) in
     store_frame df "CSV file is empty").

(** *** Vocabulary of the ingestion properties *)

Definition is_http_exception (e : exn) : bool :=
  match e with HTTPException _ _ => true | _ => false end.

(** What an endpoint may do to the session registry: nothing when it
    raises, one session added under the identifier it returns when it
    answers. *)
Definition registry_effect (before : App)
    (outcome : App * result SessionResponse) : Prop :=
  match outcome with
  | (after, Raise e) =>
      session_store after = session_store before
      /\ is_http_exception e = true
  | (after, Ok response) =>
      exists engine : Engine,
        session_store after
        = add_session (session_store before) (resp_session_id response)
            engine
  end.

End SessionRouter.

(** ** backend/services/jira.py and backend/api/jira/router.py

    JSON documents are trees; Python's operations on them ([.get], [in],
    iteration, truthiness) are written out with the exceptions they
    raise. Numbers are integers. The HTTP session and the date parser are
    outside collaborators, the operations of the class [JiraSite]; the
    field listing and the search pages are read as the REST interface
    types them. *)

Module Jira.

#[warnings="-register-all"]
Inductive jv :=
| VNull
| VBool (b : bool)
| VNum (n : Z)
| VStr (s : string)
| VList (items : list jv)
| VDict (entries : list (string * jv)).

(** The exceptions of this module; [text] is [str(e)]. *)
Inductive PyError :=
| PyException (text : string)
| PyAttributeError (text : string)
| PyTypeError (text : string)
| PyRequestError (text : string).


Inductive outcome (A : Type) :=
| Done (a : A)
| Failed (e : PyError).
Arguments Done {A} a.
Arguments Failed {A} e.

Definition and_then {A B} (r : outcome A) (k : A -> outcome B) : outcome B :=
  match r with
  | Done a => k a
  | Failed e => Failed e
  end.

Notation "'let+' x := r 'in' k" := (and_then r (fun x => k))
  (at level 10, x name, r at level 100, k at level 200).

(** *** Reading the environment (lines 11 to 25) *)

Definition double_quote : ascii := ascii_of_nat 34.

Definition starts_with_char (c : ascii) (s : string) : bool :=
  match s with
  | EmptyString => false
  | String a _ => Ascii.eqb a c
  end.

Fixpoint ends_with_char (c : ascii) (s : string) : bool :=
  match s with
  | EmptyString => false
  | String a EmptyString => Ascii.eqb a c
  | String _ r => ends_with_char c r
  end.

Fixpoint drop_last (s : string) : string :=
  match s with
  | EmptyString => EmptyString
  | String _ EmptyString => EmptyString
  | String a r => String a (drop_last r)
  end.

(** [s[1:-1]] *)
Definition slice_1_m1 (s : string) : string :=
  match s with
  | EmptyString => EmptyString
  | String _ r => drop_last r
  end.

(** [if X and X.startswith('"') and X.endswith('"'): X = X[1:-1]], on the
    value [os.getenv] gave. *)
Definition unquote (value : option string) : option string :=
  match value with
  | None => None
  | Some s =>
      if Py.truthy s && starts_with_char double_quote s
         && ends_with_char double_quote s
      then Some (slice_1_m1 s) else Some s
  end.

Record Env := mkEnv {
  VITE_JIRA_DOMAIN : option string;
  VITE_JIRA_EMAIL : option string;
  VITE_JIRA_API_TOKEN : option string;
  VITE_JIRA_JQL_QUERY : option string
}.

Definition JIRA_DOMAIN (env : Env) : option string :=
  unquote (VITE_JIRA_DOMAIN env).
Definition EMAIL (env : Env) : option string :=
  unquote (VITE_JIRA_EMAIL env).
Definition API_TOKEN (env : Env) : option string :=
  unquote (VITE_JIRA_API_TOKEN env).
Definition JQL_QUERY (env : Env) : option string :=
  unquote (VITE_JIRA_JQL_QUERY env).

Definition MAX_RESULTS : Z := 1000.

(** *** Python on JSON values *)

(** [bool(v)] *)
Definition truthy (v : jv) : bool :=
  match v with
  | VNull => false
  | VBool b => b
  | VNum n => negb (n =? 0)%Z
  | VStr s => Py.truthy s
  | VList items => match items with [] => false | _ :: _ => true end
  | VDict entries => match entries with [] => false | _ :: _ => true end
  end.

(** The value under [key] in the entries of a dict. *)
Fixpoint entry (key : string) (entries : list (string * jv)) : option jv :=
  match entries with
  | [] => None
  | kv :: rest =>
      if bool_decide (fst kv = key) then Some (snd kv) else entry key rest
  end.

(** [v == text] for a string constant *)
Definition is_str (text : string) (v : jv) : bool :=
  match v with
  | VStr s => bool_decide (s = text)
  | _ => false
  end.

(** One search request: the query, the page size, the field identifiers
    and the page token when there is one. *)
Record Payload := mkPayload {
  payload_jql : option string;
  payload_maxResults : Z;
  payload_fields : list string;
  payload_nextPageToken : option string
}.

Class JiraSite := {
  Net : Type;
  Response : Type;
  status_code : Response -> Z;
  response_text : Response -> string;
  (** [response.json()] of the field listing: the [id] and [name] of each
      field definition, in order *)
  fields_json : Response -> outcome (list (string * string));
  (** [response.json()] of a search page: its [issues] (none when the
      entry is missing) and its [nextPageToken] *)
  search_json : Response -> outcome (list jv * option string);
  (** [session.get(url, headers=headers)], the session holding the mail
      address and the token *)
  session_get :
    option string -> option string -> string -> Net -> Net * outcome Response;
  (** [session.post(url, headers=headers, json=payload)] *)
  session_post :
    option string -> option string -> string -> Payload ->
    Net -> Net * outcome Response;
  (** [datetime.strptime(text, format).strftime("%B")], [None] when
      [strptime] raises [ValueError] *)
  month_of : string -> string -> option string;
  (** the texts of the interpreter's errors, on the value at fault: no
      [get] attribute, not iterable, not a string *)
  no_get_text : jv -> string;
  not_iterable_text : jv -> string;
  not_a_string_text : jv -> string
}.

(** How the paging ended within the step budget: with the issues, with an
    exception, or not yet. *)
Inductive Paging (A : Type) :=
| Returned (a : A)
| Raised (e : PyError)
| StillPaging.
Arguments Returned {A} a.
Arguments Raised {A} e.
Arguments StillPaging {A}.

Section Service.
Context `{JiraSite}.

(** [v.get(key, default)] *)
Definition py_get (v : jv) (key : string) (default : jv) : outcome jv :=
  match v with
  | VDict entries => Done (from_option id default (entry key entries))
  | _ => Failed (PyAttributeError (no_get_text v))
  end.

(** [v.get(key)] for a key that may be [None], a key no JSON object
    has *)
Definition py_get_opt (v : jv) (key : option string) : outcome jv :=
  match key with
  | Some k => py_get v k VNull
  | None =>
      match v with
      | VDict _ => Done VNull
      | _ => Failed (PyAttributeError (no_get_text v))
      end
  end.

(** The values a [for] loop over [v] goes through. *)
Definition py_iter (v : jv) : outcome (list jv) :=
  match v with
  | VList items => Done items
  | VDict entries => Done (map (fun kv => VStr (fst kv)) entries)
  | VStr s =>
      Done (map (fun c => VStr (String c EmptyString))
              (String.list_ascii_of_string s))
  | _ => Failed (PyTypeError (not_iterable_text v))
  end.

(** [key in v] for a value that is neither false nor a string *)
Definition py_in (key : string) (v : jv) : outcome bool :=
  match v with
  | VDict entries =>
      Done (match entry key entries with Some _ => true | None => false end)
  | VList items => Done (existsb (is_str key) items)
  | _ => Failed (PyTypeError (not_iterable_text v))
  end.

(** ["".join(parts)] *)
Fixpoint py_join_parts (parts : list jv) : outcome string :=
  match parts with
  | [] => Done EmptyString
  | VStr s :: rest =>
      let+ tail := py_join_parts rest in Done (s +:+ tail)
  | v :: _ => Failed (PyTypeError (not_a_string_text v))
  end.

(** A loop that appends to [parts] what [f] gives for each item, and
    stops at the first exception. *)
Fixpoint collect {A} (f : jv -> outcome (list A)) (items : list jv)
    : outcome (list A) :=
  match items with
  | [] => Done []
  | x :: rest =>
      let+ first := f x in
      let+ more := collect f rest in
      Done (first ++ more)
  end.

(** *** [extract_description] *)

(** The body of the inner loop, for one node [c]. *)
Definition node_parts (c : jv) : outcome (list jv) :=
  let+ kind := py_get c "type" VNull in
  if is_str "text" kind then
    let+ text := py_get c "text" VNull in
    Done (if truthy text then [text] else [])
  else if is_str "hardBreak" kind then Done [VStr Py.nl]
  else Done [].

Definition block_parts (block : jv) : outcome (list jv) :=
  let+ content := py_get block "content" (VList []) in
  let+ nodes := py_iter content in
  collect node_parts nodes.

Definition extract_description (desc : jv) : outcome string :=
  if negb (truthy desc) then Done EmptyString
  else
    match desc with
    | VStr s => Done (Py.strip s)
    | _ =>
        let+ has_content := py_in "content" desc in
        let+ parts :=
          if has_content then
            let+ content := py_get desc "content" (VList []) in
            let+ blocks := py_iter content in
            collect block_parts blocks
          else Done [] in
        let+ joined := py_join_parts parts in
        Done (Py.strip joined)
    end.

(** *** The rows *)

Record Row := mkRow {
  Ticket_request : jv;
  Summary : jv;
  Description : string;
  Category : jv;
  Assignee : jv;
  Status : jv;
  Date_request_recieved : jv;
  Date_request_solved : jv;
  SLA_Days : jv;
  TAT_days : jv;
  Month : string;
  AIOPS_Enabled : jv;
  AIOPS_Resolution : jv
}.

Definition AIOPS_ENABLED_FIELD : string := "customfield_10237".
Definition AIOPS_RESOLUTION_FIELD : string := "customfield_10239".

(** The month of [created]: the format with a zone first, then the one
    without, then the empty string. *)
Definition month_name (created : jv) : outcome string :=
  if truthy created then
    match created with
    | VStr text =>
        match month_of "%Y-%m-%dT%H:%M:%S.%f%z" text with
        | Some month => Done month
        | None =>
            match month_of "%Y-%m-%dT%H:%M:%S.%f" text with
            | Some month => Done month
            | None => Done EmptyString
            end
        end
    | _ => Failed (PyTypeError (not_a_string_text created))
    end
  else Done EmptyString.

(** The body of [for issue in all_issues]. *)
Definition row_of_issue (CATEGORY_FIELD SLA_FIELD TAT_FIELD : option string)
    (issue : jv) : outcome Row :=
  let+ f := py_get issue "fields" (VDict []) in
  let+ created := py_get f "created" (VStr EmptyString) in
  let+ month := month_name created in
  let+ assignee_value := py_get f "assignee" VNull in
  let+ assignee :=
    if truthy assignee_value
    then py_get assignee_value "displayName" (VStr EmptyString)
    else Done (VStr EmptyString) in
  let+ status_value := py_get f "status" (VDict []) in
  let+ status := py_get status_value "name" (VStr EmptyString) in
  let+ key := py_get issue "key" VNull in
  let+ summary := py_get f "summary" VNull in
  let+ description_value := py_get f "description" VNull in
  let+ description := extract_description description_value in
  let+ category := py_get_opt f CATEGORY_FIELD in
  let+ received := py_get f "created" VNull in
  let+ resolved := py_get f "resolutiondate" VNull in
  let+ sla := py_get_opt f SLA_FIELD in
  let+ tat := py_get_opt f TAT_FIELD in
  let+ enabled := py_get f AIOPS_ENABLED_FIELD VNull in
  let+ resolution := py_get f AIOPS_RESOLUTION_FIELD VNull in
  Done (mkRow key summary description category assignee status received
          resolved sla tat month enabled resolution).

Fixpoint rows_of_issues (CATEGORY_FIELD SLA_FIELD TAT_FIELD : option string)
    (issues : list jv) : outcome (list Row) :=
  match issues with
  | [] => Done []
  | issue :: rest =>
      let+ row := row_of_issue CATEGORY_FIELD SLA_FIELD TAT_FIELD issue in
      let+ rows := rows_of_issues CATEGORY_FIELD SLA_FIELD TAT_FIELD rest in
      Done (row :: rows)
  end.

(** *** [fetch_jira_data] *)



Definition url (env : Env) (path : string) : string :=
  Py.str_opt (JIRA_DOMAIN env) +:+ path.

(** The [while True] loop, [all_issues] and [next_page_token] being its
    two variables. *)
Fixpoint fetch_pages (fuel : nat) (env : Env) (fields : list string)
    (next_page_token : option string) (all_issues : list jv) (net : Net)
    : Net * Paging (list jv) :=
  match fuel with
  | O => (net, StillPaging)
  | S fuel' =>
      let payload :=
        mkPayload (JQL_QUERY env) MAX_RESULTS fields
          (match next_page_token with
           | Some token => if Py.truthy token then Some token else None
           | None => None
           end) in
      match session_post (EMAIL env) (API_TOKEN env)
              (url env "/rest/api/3/search/jql") payload net with
      | (net', Failed e) => (net', Raised e)
      | (net', Done response) =>
          if negb (status_code response =? 200)%Z then
            (net',
             Raised (PyException
                       ("Error fetching issues: "
                        +:+ pretty (status_code response) +:+ " - "
                        +:+ response_text response)))
          else
            match search_json response with
            | Failed e => (net', Raised e)
            | Done (issues, token) =>
                match issues with
                | [] => (net', Returned all_issues)
                | _ :: _ =>
                    match token with
                    | Some t =>
                        if Py.truthy t then
                          fetch_pages fuel' env fields (Some t)
                            (all_issues ++ issues) net'
                        else (net', Returned (all_issues ++ issues))
                    | None => (net', Returned (all_issues ++ issues))
                    end
                end
            end
      end
  end.



(** *** Vocabulary of the properties *)

Definition is_still_paging {A} (p : Paging A) : bool :=
  match p with StillPaging => true | _ => false end.

(** The search request the loop sends when its token is [token]. *)
Definition search_request (env : Env) (fields : list string)
    (token : option string) : Net -> Net * outcome Response :=
  session_post (EMAIL env) (API_TOKEN env)
    (url env "/rest/api/3/search/jql")
    (mkPayload (JQL_QUERY env) MAX_RESULTS fields
       (match token with
        | Some t => if Py.truthy t then Some t else None
        | None => None
        end)).

End Service.

End Jira.

(** ** A sample world

    A small instance of [External], used to run the definitions on
    concrete inputs: one table [data(id, name)], a chat model that replays
    a script of responses, and a log of the SQL statements executed. *)

Module Sample.

Record world := mkWorld {
  llm_script : list (result BaseMessage);
  sql_log : list string
}.

Definition no_such_table_text : string :=
  "(sqlite3.OperationalError) no such table: missing "
  +:+ "[SQL: SELECT 'NO SUCH COLUMN' FROM missing]".

Definition sample_sql (q : string)
    : result (list string * list (list SqlValue)) :=
  if bool_decide (q = "SELECT 1") then
    Ok (["1"], [[SqlInteger 1]])
  else if bool_decide (q = "SELECT id, name FROM data") then
    Ok (["id"; "name"],
        [[SqlInteger 1; SqlText "ann"]; [SqlInteger 2; SqlText "bob"];
         [SqlInteger 3; SqlNull]])
  else if bool_decide (q = "SELECT nope FROM data") then
    Raise (DatabaseError "(sqlite3.OperationalError) no such column: nope")
  else if bool_decide (q = "SELECT 'NO SUCH COLUMN' FROM missing") then
    Raise (DatabaseError no_such_table_text)
  else
    Raise (DatabaseError
             "(sqlite3.OperationalError) near 'FROM': syntax error").

Definition sample_columns (name : string) : result (list ColumnInfo) :=
  if bool_decide (name = "data") then
    Ok [mkColumn "id" (Some "BIGINT"); mkColumn "name" (Some "TEXT")]
  else Raise (DatabaseError name).

Definition sample_chat (w : world) : world * result BaseMessage :=
  match llm_script w with
  | r :: rest => (mkWorld rest (sql_log w), r)
  | [] => (w, Raise (UpstreamError "no response"))
  end.

#[local] Instance sample : External := {|
  Engine := nat;
  World := world;
  inspector_get_table_names := fun _ w => (w, Ok ["data"]);
  inspector_get_columns := fun _ name w => (w, sample_columns name);
  engine_execute := fun _ q w =>
    (mkWorld (llm_script w) (sql_log w ++ [q]), sample_sql q);
  chat_client := fun _ => Ok tt;
  chat_invoke := fun _ _ _ w => sample_chat w;
  validation_error_text := fun field => "validation error: " +:+ field;
  str_of_list := fun l =>
    "[" +:+ Py.join ", " (map (fun s => "'" +:+ s +:+ "'") l) +:+ "]"
|}.

Definition db7 : @Engine sample := 7%nat.

(** A tool call of the chat model and the message that carries it. *)
Definition call (name : string) (arg value : string) (id : string)
    : ToolCall :=
  mkToolCall name {[ arg := JStr value ]} (Some id).

Definition ai_calls (calls : list ToolCall) : BaseMessage :=
  mkMessage type_ai EmptyString
    {[ "tool_calls" := JOther "[...]" ]} calls None None.

Definition ai_answer (text : string) : BaseMessage :=
  mkMessage type_ai text ∅ [] None None.

Definition sessions : SessionStore :=
  add_session SessionStore_new "s1" db7.

Definition state_with (m : BaseMessage) : QueryGraphState :=
  mkState [m] [] (QueryOptions_new true) (mkToolkit db7) "how many rows?".

(** A store whose tool map holds the three tools of the toolkit. *)
Definition store_of (w : world) : @Store sample :=
  @mkStore sample w (registry db7).

Definition store_with (script : list (result BaseMessage)) : Store :=
  store_of (mkWorld script []).

Definition select_rows : ToolCall :=
  call "sql_db_query" "query" "SELECT id, name FROM data" "c1".

Definition select_nope : ToolCall :=
  call "sql_db_query" "query" "SELECT nope FROM data" "c2".

(** A model message asking for the schema of a table that does not
    exist, then for a query. *)
Definition schema_then_query : BaseMessage :=
  ai_calls [call "sql_db_schema" "table_names" "nope" "c1";
            call "sql_db_query" "query" "SELECT 1" "c2"].

Definition query_then_answer : list (result BaseMessage) :=
  [Ok (ai_calls [call "sql_db_query" "query" "SELECT 1" "c1"]);
   Ok (ai_answer "one row")].

(** A service on the sample engine, as a value. *)
Definition service : @QueryGraphService sample :=
  @mkService sample db7 (mkToolkit db7).

(** A model message whose extras hold the provider's [tool_calls]
    payload while none of it was read into an invocation, and one with an
    invocation and no such entry. *)
Definition ai_entry_only : BaseMessage :=
  mkMessage type_ai EmptyString {[ "tool_calls" := JOther "[...]" ]} []
    None None.

Definition ai_invocation_only : BaseMessage :=
  mkMessage type_ai EmptyString ∅ [select_rows] None None.

(** An artifact made by an earlier step. *)
Definition earlier_artifact : Artifact :=
  SQL_QUERY_STRING_RESULT "SELECT count(*) FROM data" false.

(** A row with a BLOB value. *)
Definition blob_run : Artifact :=
  SQL_QUERY_RUN_RESULT ["payload"] [[SqlBlob "abc"]] false None.

(** Three invocations, the second naming a tool that does not exist. *)
Definition query_unknown_query : BaseMessage :=
  ai_calls [call "sql_db_query" "query" "SELECT 1" "c1";
            call "drop_tables" "confirm" "yes" "c2";
            select_rows].

(** A listing, a schema request and a query. *)
Definition list_schema_query : BaseMessage :=
  ai_calls [call "list_sql_tables" "tool_input" "all" "c1";
            call "sql_db_schema" "table_names" " data" "c2";
            select_rows].

Definition list_schema : BaseMessage :=
  ai_calls [call "list_sql_tables" "tool_input" "all" "c1";
            call "sql_db_schema" "table_names" " data" "c2"].



(** Frames for the sample: the column names and the rows. *)
Definition sample_frame : Type := list string * list (list string).

Definition sample_parse (content : string) : ParseOutcome sample_frame :=
  if bool_decide (content = "caf\xe9") then
    RaisedUnicodeDecodeError "'utf-8' codec can't decode byte 0xe9"
  else if bool_decide (content = "a,b|1") then
    RaisedOther (RuntimeError "Error tokenizing data")
  else Parsed ([" id"; "name "], [["1"; "ann"]]).

#[local] Instance sample_ingestion : @Ingestion sample := {|
  DataFrame := sample_frame;
  Records := list (list (string * string));
  UploadFile := string;
  pd_DataFrame := fun records =>
    Ok (match records with
        | [] => ([], [])
        | first :: _ => (map fst first, map (map snd) records)
        end);
  file_read := fun file w => (w, Ok file);
  read_csv_utf8 := sample_parse;
  read_csv_latin1 := fun _ =>
    Raise (RuntimeError "No columns to parse from file");
  read_csv_forgiving := fun _ => Ok (["id"], [["1"]]);
  df_empty := fun df => match snd df with [] => true | _ :: _ => false end;
  df_strip_columns := fun df => Ok (map Py.strip (fst df), snd df);
  df_where_notnull := fun df => Ok df;
  df_len := fun df => length (snd df);
  df_columns := fun df => fst df;
  uuid4 := fun w => (w, "0f8fad5b-d9cb-469f-a165-70867728950e");
  make_sessions_dir := fun w => (w, Ok "/tmp/ai_analyst_sessions");
  create_engine := fun _ w => (w, Ok 9%nat);
  df_to_sql := fun _ _ _ w => (w, Ok tt)
|}.

Definition sample_app : @App sample :=
  @mkApp sample (mkWorld [] []) sessions.

(** A Jira site that never runs out of pages: every search request is
    answered with one issue and a token. The network state counts the
    requests. *)
Record site_response := mkSiteResponse {
  site_status : Z;
  site_text : string;
  site_fields : list (string * string);
  site_issues : list Jira.jv;
  site_token : option string
}.

Definition sample_issue : Jira.jv :=
  Jira.VDict
    [("key", Jira.VStr "OPS-1");
     ("fields",
      Jira.VDict [("summary", Jira.VStr "Disk full");
                  ("description", Jira.VStr "  clean /var  ")])].

#[local] Instance endless_site : Jira.JiraSite := {|
  Jira.Net := nat;
  Jira.Response := site_response;
  Jira.status_code := site_status;
  Jira.response_text := site_text;
  Jira.fields_json := fun r => Jira.Done (site_fields r);
  Jira.search_json := fun r => Jira.Done (site_issues r, site_token r);
  Jira.session_get := fun _ _ _ n =>
    (S n, Jira.Done (mkSiteResponse 200 EmptyString
                       [("summary", "Summary")] [] None));
  Jira.session_post := fun _ _ _ _ n =>
    (S n, Jira.Done (mkSiteResponse 200 EmptyString []
                       [sample_issue] (Some "next")));
  Jira.month_of := fun _ _ => None;
  Jira.no_get_text := fun _ => "object has no attribute 'get'";
  Jira.not_iterable_text := fun _ => "object is not iterable";
  Jira.not_a_string_text := fun _ => "expected str instance"
|}.

Definition sample_env : Jira.Env :=
  Jira.mkEnv (Some "https://example.atlassian.net") (Some "ops@example.com")
    (Some "token") (Some "project = OPS").

End Sample.


(** ** Properties *)

Section Properties.
Context `{External}.

(** *** The store monad *)

Lemma bind_ok {S A B} (m : M S A) (k : A -> M S B) s s' a :
  m s = (s', Ok a) -> bind m k s = k a s'.
Proof. intros Hm. unfold bind. by rewrite Hm. Qed.

Lemma bind_raise {S A B} (m : M S A) (k : A -> M S B) s s' e :
  m s = (s', Raise e) -> bind m k s = (s', Raise e).
Proof. intros Hm. unfold bind. by rewrite Hm. Qed.

Lemma external_eq {A} (op : World -> World * result A) s :
  external op s = (mkStore (fst (op (world s))) (tool_map s),
                   snd (op (world s))).
Proof. unfold external. by destruct (op (world s)). Qed.

(** *** The planning step *)

(** The assignment at the end of [get_tools] is refused: [tool_map] is
    not among the declared fields. *)
Lemma get_tools_eq (self : SQLDatabaseToolkit) (allow_execution : bool)
    (s : Store) :
  get_tools self allow_execution s
  = (s, Raise (ValueError (no_field_text "SQLDatabaseToolkit" "tool_map"))).
Proof. reflexivity. Qed.

Lemma CallModelNode_run_eq (state : QueryGraphState) (s : Store) :
  CallModelNode_run state s = (s, Raise (planning_error state)).
Proof.
  unfold CallModelNode_run, planning_error, bind, of_result.
  destruct (ChatOpenAI_new _ _ _ _) as [model|e]; [|done].
  by rewrite get_tools_eq.
Qed.

Lemma QueryGraphService_new_eq (engine : Engine) :
  QueryGraphService_new engine
  = Raise (ValueError (no_field_text "SQLDatabaseToolkit" "tool_map")).
Proof. reflexivity. Qed.

(** *** The graph of [build_graph] *)

Lemma build_graph_nodes (node : string) :
  nodes build_graph !! node =
  if bool_decide (node = CallToolNode_name) then Some CallToolNode_run
  else if bool_decide (node = CallModelNode_name) then Some CallModelNode_run
  else None.
Proof.
  unfold build_graph, set_entry_point, add_edge, add_conditional_edges,
    add_node, StateGraph_new; cbn [nodes].
  rewrite !lookup_insert, lookup_empty.
  repeat case_decide; repeat case_bool_decide; congruence.
Qed.

Lemma build_graph_branches (node : string) :
  branches build_graph !! node =
  if bool_decide (node = CallModelNode_name)
  then Some ShouldCallToolCondition_run else None.
Proof.
  unfold build_graph, set_entry_point, add_edge, add_conditional_edges,
    add_node, StateGraph_new; cbn [branches].
  rewrite lookup_insert, lookup_empty.
  repeat case_decide; repeat case_bool_decide; congruence.
Qed.

Lemma build_graph_edges (node : string) :
  edges build_graph !! node =
  if bool_decide (node = CallToolNode_name)
  then Some CallModelNode_name else None.
Proof.
  unfold build_graph, set_entry_point, add_edge, add_conditional_edges,
    add_node, StateGraph_new; cbn [edges].
  rewrite lookup_insert, lookup_empty.
  repeat case_decide; repeat case_bool_decide; congruence.
Qed.

Lemma build_graph_plan :
  nodes build_graph !! CallModelNode_name = Some CallModelNode_run
  /\ branches build_graph !! CallModelNode_name
     = Some ShouldCallToolCondition_run.
Proof.
  rewrite build_graph_nodes, build_graph_branches.
  split; repeat case_bool_decide; done.
Qed.

Lemma build_graph_act :
  nodes build_graph !! CallToolNode_name = Some CallToolNode_run
  /\ branches build_graph !! CallToolNode_name = None
  /\ edges build_graph !! CallToolNode_name = Some CallModelNode_name.
Proof.
  rewrite build_graph_nodes, build_graph_branches, build_graph_edges.
  repeat split; repeat case_bool_decide; done.
Qed.

Lemma next_node_plan (state : QueryGraphState) :
  next_node build_graph CallModelNode_name state
  = ShouldCallToolCondition_run state.
Proof.
  destruct build_graph_plan as [_ Hbranch].
  unfold next_node. by rewrite Hbranch.
Qed.

Lemma next_node_act (state : QueryGraphState) :
  next_node build_graph CallToolNode_name state = ret CallModelNode_name.
Proof.
  destruct build_graph_act as (_ & Hbranch & Hedge).
  unfold next_node. by rewrite Hbranch, Hedge.
Qed.

Lemma ShouldCallToolCondition_run_eq (state : QueryGraphState)
    (m : BaseMessage) (s : Store) :
  last (messages state) = Some m ->
  ShouldCallToolCondition_run state s
  = (s, Ok (if has_tool_calls_entry m then CallToolNode_name else END)).
Proof.
  intros Hlast.
  unfold ShouldCallToolCondition_run, last_message, has_tool_calls_entry.
  rewrite Hlast. unfold bind, ret.
  by destruct (additional_kwargs m !! "tool_calls").
Qed.

Lemma superstep_plan (state : QueryGraphState) (s : Store) :
  superstep build_graph CallModelNode_name state s =
  match CallModelNode_run state s with
  | (s', Ok update) =>
      match ShouldCallToolCondition_run (fold_update state update) s' with
      | (s'', Ok next) =>
          (s'', Ok ((CallModelNode_name, update), fold_update state update,
                    next))
      | (s'', Raise e) => (s'', Raise e)
      end
  | (s', Raise e) => (s', Raise e)
  end.
Proof.
  destruct build_graph_plan as [Hnode _].
  unfold superstep. rewrite Hnode.
  unfold bind at 1.
  change (ret CallModelNode_run s) with (s, Ok CallModelNode_run).
  cbv beta iota. unfold bind at 1.
  destruct (CallModelNode_run state s) as [s' [update|e]]; [|done].
  rewrite next_node_plan. unfold bind.
  by destruct (ShouldCallToolCondition_run _ s') as [s'' [next|e]].
Qed.

Lemma superstep_act (state : QueryGraphState) (s : Store) :
  superstep build_graph CallToolNode_name state s =
  match CallToolNode_run state s with
  | (s', Ok update) =>
      (s', Ok ((CallToolNode_name, update), fold_update state update,
               CallModelNode_name))
  | (s', Raise e) => (s', Raise e)
  end.
Proof.
  destruct build_graph_act as (Hnode & Hbranch & Hedge).
  unfold superstep, next_node. rewrite Hnode, Hbranch, Hedge.
  unfold bind at 1.
  change (ret CallToolNode_run s) with (s, Ok CallToolNode_run).
  cbv beta iota. unfold bind at 1.
  by destruct (CallToolNode_run state s) as [s' [update|e]].
Qed.

(** *** The execute-SQL tool *)

Lemma validate_bool_default (args : gmap string json) (chart : bool) :
  validate_default validate_bool "for_chart" false args = Ok chart ->
  validate_bool "for_chart" (default (JBool false) (args !! "for_chart"))
  = Ok chart.
Proof.
  unfold validate_default. by destruct (args !! "for_chart").
Qed.

(** What [get_response] returns on validated arguments, by the outcome
    of the transaction. *)
Lemma ExecuteSQLTool_get_response_eq (db : Engine)
    (state : QueryGraphState) (args : gmap string json)
    (call_id q : string) (chart : bool) (s : Store) :
  args !! "query" = Some (JStr q) ->
  validate_default validate_bool "for_chart" false args = Ok chart ->
  ExecuteSQLTool_get_response db state args call_id s =
  match engine_execute db q (world s) with
  | (w, Ok (cols, rows)) =>
      (mkStore w (tool_map s),
       Ok (state_update [ToolMessage success_text "sql_db_query" call_id]
             [SQL_QUERY_STRING_RESULT q chart;
              SQL_QUERY_RUN_RESULT cols rows chart None]))
  | (w, Raise e) =>
      (mkStore w (tool_map s),
       Ok (state_update
             [ToolMessage ("ERROR: " +:+ str_exn e) "sql_db_query" call_id]
             [SQL_QUERY_STRING_RESULT q chart]))
  end.
Proof.
  intros Hq Hchart.
  unfold ExecuteSQLTool_get_response, ExecuteSQLTool_run,
    ExecuteSQLTool__run, validate_required.
  rewrite Hq, Hchart, (validate_bool_default _ _ Hchart).
  unfold bind, of_result, try_except, run_sql, ret; cbn [validate_str].
  rewrite external_eq.
  destruct (engine_execute db q (world s)) as [w [[cols rows]|e]];
    cbn [fst snd]; [|done].
  by rewrite map_id.
Qed.

Lemma registry_lookup (db : Engine) :
  registry db !! "list_sql_tables" = Some (ListTablesTool db)
  /\ registry db !! "sql_db_schema" = Some (InfoTablesTool db)
  /\ registry db !! "sql_db_query" = Some (ExecuteSQLTool db).
Proof.
  unfold registry; cbn [foldl tool_name].
  rewrite !lookup_insert. repeat split; repeat case_decide; done.
Qed.

Lemma call_tool_execute (state : QueryGraphState) (tool_call : ToolCall)
    (db : Engine) (q : string) (chart : bool) (s : Store)
    (output_messages : list BaseMessage) (artifacts : list Artifact) :
  tc_name tool_call = "sql_db_query" ->
  tool_map s = registry db ->
  tc_args tool_call !! "query" = Some (JStr q) ->
  validate_default validate_bool "for_chart" false (tc_args tool_call)
  = Ok chart ->
  call_tool state tool_call (output_messages, artifacts) s =
  let call_id := Py.str_opt (tc_id tool_call) in
  match engine_execute db q (world s) with
  | (w, Ok (cols, rows)) =>
      (mkStore w (tool_map s),
       Ok (output_messages
             ++ [ToolMessage success_text "sql_db_query" call_id],
           artifacts
             ++ [SQL_QUERY_STRING_RESULT q chart;
                 SQL_QUERY_RUN_RESULT cols rows chart None]))
  | (w, Raise e) =>
      (mkStore w (tool_map s),
       Ok (output_messages
             ++ [ToolMessage ("ERROR: " +:+ str_exn e) "sql_db_query"
                   call_id],
           artifacts ++ [SQL_QUERY_STRING_RESULT q chart]))
  end.
Proof.
  intros Hname Hmap Hq Hchart.
  destruct (registry_lookup db) as (_ & _ & Hexec).
  unfold call_tool, lookup_tool. unfold bind at 1.
  rewrite Hname, Hmap, Hexec. rewrite <- Hmap.
  unfold bind.
  rewrite (ExecuteSQLTool_get_response_eq _ _ _ _ q chart) by done.
  by destruct (engine_execute db q (world s)) as [w [[cols rows]|e]].
Qed.

Lemma CallToolNode_run_single (state : QueryGraphState) (m : BaseMessage)
    (tool_call : ToolCall) (s : Store) :
  last (messages state) = Some m ->
  tool_calls m = [tool_call] ->
  CallToolNode_run state s =
  match call_tool state tool_call ([], []) s with
  | (s', Ok (output_messages, artifacts)) =>
      (s', Ok (state_update output_messages artifacts))
  | (s', Raise e) => (s', Raise e)
  end.
Proof.
  intros Hlast Hcalls.
  unfold CallToolNode_run, last_message. rewrite Hlast.
  unfold bind at 1. unfold ret at 1. rewrite Hcalls.
  unfold bind at 1. cbn [call_tools]. unfold bind at 1.
  destruct (call_tool state tool_call ([], []) s)
    as [s' [[output_messages artifacts]|e]]; done.
Qed.

(** C2. An [execute_sql] invocation whose statement succeeds with N
    rows of M values each makes the execution step append one tool-role
    acknowledgement (not marked as an error) to its messages and exactly
    two artifacts to its results, the SQL text then the SQL run; the run
    artifact has N rows, each of length M. A step made of this
    invocation alone returns exactly these. *)
Theorem execute_sql_success_appends (state : QueryGraphState)
    (tool_call : ToolCall) (db : Engine) (q : string) (chart : bool)
    (s : Store) (w' : World) (cols : list string)
    (rows : list (list SqlValue)) (N M : nat)
    (output_messages : list BaseMessage) (artifacts : list Artifact) :
  tc_name tool_call = "sql_db_query" ->
  tool_map s = registry db ->
  tc_args tool_call !! "query" = Some (JStr q) ->
  validate_default validate_bool "for_chart" false (tc_args tool_call)
  = Ok chart ->
  engine_execute db q (world s) = (w', Ok (cols, rows)) ->
  length rows = N ->
  Forall (fun r => length r = M) rows ->
  exists (ack : BaseMessage) (run_rows : list (list SqlValue)),
    call_tool state tool_call (output_messages, artifacts) s =
      (mkStore w' (tool_map s),
       Ok (output_messages ++ [ack],
           artifacts ++ [SQL_QUERY_STRING_RESULT q chart;
                         SQL_QUERY_RUN_RESULT cols run_rows chart None]))
    /\ (forall m, last (messages state) = Some m ->
                  tool_calls m = [tool_call] ->
         CallToolNode_run state s =
           (mkStore w' (tool_map s),
            Ok (state_update [ack]
                  [SQL_QUERY_STRING_RESULT q chart;
                   SQL_QUERY_RUN_RESULT cols run_rows chart None])))
    /\ msg_type ack = type_tool
    /\ tool_call_id ack = Some (Py.str_opt (tc_id tool_call))
    /\ Py.startswith "ERROR: " (content ack) = false
    /\ length run_rows = N
    /\ Forall (fun r => length r = M) run_rows.
Proof.
  intros Hname Hmap Hq Hchart Hexec HN HM.
  exists (ToolMessage success_text "sql_db_query"
            (Py.str_opt (tc_id tool_call))), rows.
  assert (Hcall : forall acc_m acc_r,
    call_tool state tool_call (acc_m, acc_r) s =
      (mkStore w' (tool_map s),
       Ok (acc_m ++ [ToolMessage success_text "sql_db_query"
                       (Py.str_opt (tc_id tool_call))],
           acc_r ++ [SQL_QUERY_STRING_RESULT q chart;
                     SQL_QUERY_RUN_RESULT cols rows chart None]))).
  { intros acc_m acc_r.
    rewrite (call_tool_execute _ _ db q chart) by done.
    by rewrite Hexec. }
  split; [apply Hcall|].
  split.
  { intros m Hlast Hcalls.
    rewrite (CallToolNode_run_single _ m tool_call) by done.
    by rewrite Hcall. }
  repeat split; done.
Qed.

(** C3. An [execute_sql] invocation whose statement fails makes the
    execution step append exactly one artifact, the SQL text, and no
    SQL-run artifact, with one tool message whose content starts with
    the error mark; the invocation does not raise, and a step made of it
    alone hands over to the planning node. *)
Theorem execute_sql_failure_appends (state : QueryGraphState)
    (tool_call : ToolCall) (db : Engine) (q : string) (chart : bool)
    (s : Store) (w' : World) (e : exn)
    (output_messages : list BaseMessage) (artifacts : list Artifact) :
  tc_name tool_call = "sql_db_query" ->
  tool_map s = registry db ->
  tc_args tool_call !! "query" = Some (JStr q) ->
  validate_default validate_bool "for_chart" false (tc_args tool_call)
  = Ok chart ->
  engine_execute db q (world s) = (w', Raise e) ->
  exists (err : BaseMessage) (new_artifacts : list Artifact),
    call_tool state tool_call (output_messages, artifacts) s =
      (mkStore w' (tool_map s),
       Ok (output_messages ++ [err], artifacts ++ new_artifacts))
    /\ new_artifacts = [SQL_QUERY_STRING_RESULT q chart]
    /\ length (List.filter is_sql_text new_artifacts) = 1
    /\ length (List.filter is_sql_run new_artifacts) = 0
    /\ msg_type err = type_tool
    /\ content err = "ERROR: " +:+ str_exn e
    /\ Py.startswith "ERROR: " (content err) = true
    /\ (forall m, last (messages state) = Some m ->
                  tool_calls m = [tool_call] ->
         superstep build_graph CallToolNode_name state s =
           (mkStore w' (tool_map s),
            Ok ((CallToolNode_name, state_update [err] new_artifacts),
                fold_update state (state_update [err] new_artifacts),
                CallModelNode_name))).
Proof.
  intros Hname Hmap Hq Hchart Hexec.
  exists (ToolMessage ("ERROR: " +:+ str_exn e) "sql_db_query"
            (Py.str_opt (tc_id tool_call))),
    [SQL_QUERY_STRING_RESULT q chart].
  assert (Hcall : forall acc_m acc_r,
    call_tool state tool_call (acc_m, acc_r) s =
      (mkStore w' (tool_map s),
       Ok (acc_m ++ [ToolMessage ("ERROR: " +:+ str_exn e) "sql_db_query"
                       (Py.str_opt (tc_id tool_call))],
           acc_r ++ [SQL_QUERY_STRING_RESULT q chart]))).
  { intros acc_m acc_r.
    rewrite (call_tool_execute _ _ db q chart) by done.
    by rewrite Hexec. }
  split; [apply Hcall|].
  repeat split.
  intros m Hlast Hcalls.
  rewrite superstep_act, (CallToolNode_run_single _ m tool_call) by done.
  by rewrite Hcall.
Qed.

(** *** Runs of the graph *)


Lemma astream_from_S (fuel : nat) (g : StateGraph) (node : string)
    (state : QueryGraphState) (s : Store) :
  node <> END ->
  astream_from (S fuel) g node state s =
  match superstep g node state s with
  | (s', Raise e) => (s', ([], state, Aborted e))
  | (s', Ok (chunk, state', next)) =>
      let '(s'', (chunks, final, ending)) :=
        astream_from fuel g next state' s' in
      (s'', ((s', chunk) :: chunks, final, ending))
  end.
Proof.
  intros Hnode. cbn [astream_from].
  by rewrite bool_decide_eq_false_2.
Qed.

(** A run entered at the planning node yields nothing. *)
Lemma astream_from_plan (fuel : nat) (state : QueryGraphState) (s : Store) :
  astream_from (S fuel) build_graph CallModelNode_name state s
  = (s, ([], state, Aborted (planning_error state))).
Proof.
  rewrite astream_from_S by done.
  by rewrite superstep_plan, CallModelNode_run_eq.
Qed.


Lemma query_registered (session_store : SessionStore)
    (session_id prompt : string) (secure : bool) (engine : Engine) :
  get_engine session_store session_id = Some engine ->
  query session_store session_id prompt secure
  = Raise (ValueError (no_field_text "SQLDatabaseToolkit" "tool_map")).
Proof.
  intros Hengine. unfold query.
  by rewrite Hengine, QueryGraphService_new_eq.
Qed.

(** C1, as amended. In the graph of [build_graph] the loop starts at the
    planning node. The successor of a planning step is read off the
    latest message of the state the step has written: [END] when its
    extras hold no [tool_calls] entry, the execution node when they do,
    whatever invocations the message carries; for a message that has the
    entry exactly when it carries invocations this is the rule of the
    claim. The successor of an execution step is the planning node,
    whatever the step produced. (A step that raises has no successor:
    the exception leaves the loop.) *)
Theorem plan_act_transition_rule (state : QueryGraphState)
    (m : BaseMessage) (s : Store) :
  last (messages state) = Some m ->
  entry_point build_graph = Some CallModelNode_name
  /\ NoDup [CallModelNode_name; CallToolNode_name; END]
  /\ next_node build_graph CallModelNode_name state s
     = (s, Ok (if has_tool_calls_entry m then CallToolNode_name else END))
  /\ (has_tool_calls_entry m = carries_tool_invocations m ->
      next_node build_graph CallModelNode_name state s
      = (s, Ok (if carries_tool_invocations m
                then CallToolNode_name else END)))
  /\ (forall prior : QueryGraphState,
        superstep build_graph CallModelNode_name prior s =
        match CallModelNode_run prior s with
        | (s', Ok update) =>
            match next_node build_graph CallModelNode_name
                    (fold_update prior update) s' with
            | (s'', Ok next) =>
                (s'', Ok ((CallModelNode_name, update),
                          fold_update prior update, next))
            | (s'', Raise e) => (s'', Raise e)
            end
        | (s', Raise e) => (s', Raise e)
        end)
  /\ next_node build_graph CallToolNode_name state s
     = (s, Ok CallModelNode_name)
  /\ superstep build_graph CallToolNode_name state s =
     match CallToolNode_run state s with
     | (s', Ok update) =>
         (s', Ok ((CallToolNode_name, update), fold_update state update,
                  CallModelNode_name))
     | (s', Raise e) => (s', Raise e)
     end.
Proof.
  intros Hlast.
  assert (Hnext :
    next_node build_graph CallModelNode_name state s
    = (s, Ok (if has_tool_calls_entry m then CallToolNode_name else END))).
  { rewrite next_node_plan. by apply ShouldCallToolCondition_run_eq. }
  split; [reflexivity|].
  split.
  { repeat constructor; rewrite ?elem_of_cons, ?elem_of_nil;
      intros Hin; intuition discriminate. }
  split; [exact Hnext|].
  split; [by intros <-|].
  split.
  { intros prior. rewrite superstep_plan.
    destruct (CallModelNode_run prior s) as [s' [update|e]]; [|done].
    by rewrite next_node_plan. }
  split; [by rewrite next_node_act|].
  apply superstep_act.
Qed.

(** C6. A request on the query boundary whose session identifier is
    not in the session registry fails with an error instead of
    returning a streaming response: no event of any kind is produced. *)
Theorem unknown_session_fails_before_events (session_store : SessionStore)
    (session_id prompt : string) (secure : bool) :
  _engines session_store !! session_id = None ->
  query session_store session_id prompt secure
  = Raise (RuntimeError "Invalid session_id. Upload CSV first.")
  /\ forall (fuel : nat) (w : World),
       response_events (query session_store session_id prompt secure)
         fuel w = [].
Proof.
  intros Hnone. unfold query, get_engine. by rewrite Hnone.
Qed.

(** *** What the steps read of the state *)







(** *** Artifacts are appended within a step *)

Lemma call_tools_app (state : QueryGraphState) (calls1 calls2 : list ToolCall) :
  forall (acc : list BaseMessage * list Artifact) (s : Store),
    call_tools state (calls1 ++ calls2) acc s =
    match call_tools state calls1 acc s with
    | (s1, Ok acc1) => call_tools state calls2 acc1 s1
    | (s1, Raise e) => (s1, Raise e)
    end.
Proof.
  induction calls1 as [|tool_call rest IH]; intros acc s; [done|].
  cbn [app call_tools]. unfold bind.
  destruct (call_tool state tool_call acc s) as [s1 [acc1|e]]; [|done].
  apply IH.
Qed.

Lemma CallToolNode_run_calls (state : QueryGraphState) (m : BaseMessage)
    (s : Store) :
  last (messages state) = Some m ->
  CallToolNode_run state s =
  match call_tools state (tool_calls m) ([], []) s with
  | (s', Ok (output_messages, artifacts)) =>
      (s', Ok (state_update output_messages artifacts))
  | (s', Raise e) => (s', Raise e)
  end.
Proof.
  intros Hlast. unfold CallToolNode_run, last_message. rewrite Hlast.
  unfold bind at 1. unfold ret at 1. unfold bind.
  by destruct (call_tools state (tool_calls m) ([], []) s)
    as [s' [[output_messages artifacts]|e]].
Qed.


(** The loop body touches its two lists by appending to them. *)
Lemma call_tool_frame (state : QueryGraphState) (tool_call : ToolCall)
    (output_messages : list BaseMessage) (artifacts : list Artifact)
    (s : Store) :
  call_tool state tool_call (output_messages, artifacts) s =
  match call_tool state tool_call ([], []) s with
  | (s', Ok (new_messages, new_artifacts)) =>
      (s', Ok (output_messages ++ new_messages, artifacts ++ new_artifacts))
  | (s', Raise e) => (s', Raise e)
  end.
Proof.
  unfold call_tool, bind, ret.
  destruct (lookup_tool (tc_name tool_call) s) as [s1 [[db|db|db]|e]];
    [| | |done].
  - destruct (ListTablesTool_run db (tc_args tool_call) s1)
      as [s2 [resp|e]]; [|done].
    by rewrite app_nil_r.
  - by destruct (InfoTablesTool_get_response db state _ _ s1)
      as [s2 [updates|e]].
  - by destruct (ExecuteSQLTool_get_response db state _ _ s1)
      as [s2 [updates|e]].
Qed.

Lemma call_tools_frame (state : QueryGraphState) (calls : list ToolCall) :
  forall (output_messages : list BaseMessage) (artifacts : list Artifact)
         (s : Store),
    call_tools state calls (output_messages, artifacts) s =
    match call_tools state calls ([], []) s with
    | (s', Ok (new_messages, new_artifacts)) =>
        (s', Ok (output_messages ++ new_messages,
                 artifacts ++ new_artifacts))
    | (s', Raise e) => (s', Raise e)
    end.
Proof.
  induction calls as [|tool_call rest IH];
    intros output_messages artifacts s.
  { cbn [call_tools]. unfold ret. by rewrite !app_nil_r. }
  cbn [call_tools]. unfold bind.
  rewrite call_tool_frame.
  destruct (call_tool state tool_call ([], []) s)
    as [s1 [[m1 a1]|e]]; [|done].
  rewrite (IH (output_messages ++ m1) (artifacts ++ a1)).
  rewrite (IH m1 a1).
  destruct (call_tools state rest ([], []) s1)
    as [s2 [[m2 a2]|e]]; [|done].
  by rewrite !app_assoc.
Qed.



(** *** The describe-schema tool *)

Lemma stripped_names_filter (segments : list string) :
  stripped_names segments
  = List.filter Py.truthy (map Py.strip segments).
Proof.
  induction segments as [|t rest IH]; [done|].
  cbn [stripped_names map List.filter]. rewrite IH.
  by destruct (Py.truthy (Py.strip t)).
Qed.

Lemma split_not_nil (sep : ascii) (text : string) :
  Py.split sep text <> [].
Proof.
  destruct text as [|c r]; [done|]. cbn [Py.split].
  destruct (Ascii.eqb c sep); [done|].
  by destruct (Py.split sep r).
Qed.

Lemma strip_all_space (text : string) :
  all_space text = true -> Py.strip text = EmptyString.
Proof.
  intros Hspace. unfold Py.strip.
  assert (Hl : Py.lstrip text = EmptyString).
  { induction text as [|c r IH]; [done|].
    cbn [all_space] in Hspace. apply andb_true_iff in Hspace as [Hc Hr].
    cbn [Py.lstrip]. rewrite Hc. by apply IH. }
  by rewrite Hl.
Qed.

Lemma split_only_commas_and_spaces (text : string) :
  only_commas_and_spaces text = true ->
  Forall (fun t => all_space t = true) (Py.split "," text).
Proof.
  induction text as [|c r IH]; intros Honly.
  { by repeat constructor. }
  cbn [only_commas_and_spaces] in Honly.
  apply andb_true_iff in Honly as [Hc Hr]. specialize (IH Hr).
  cbn [Py.split]. destruct (Ascii.eqb c ",") eqn:Hcomma.
  { by constructor. }
  cbn [orb] in Hc.
  pose proof (split_not_nil "," r) as Hnil.
  destruct (Py.split "," r) as [|h t]; [done|].
  inversion IH as [|? ? Hh Ht]; subst.
  constructor; [|done]. cbn [all_space]. by rewrite Hc, Hh.
Qed.

Lemma stripped_names_all_space (segments : list string) :
  Forall (fun t => all_space t = true) segments ->
  stripped_names segments = [].
Proof.
  induction 1 as [|t rest Ht _ IH]; [done|].
  cbn [stripped_names]. by rewrite (strip_all_space t Ht).
Qed.

Lemma get_table_info_loop_eq (db : Engine) (names : list string) :
  forall (infos : list string) (s : Store),
    get_table_info_loop db names infos s =
    match lookup_columns db names s with
    | (s', Ok tables) =>
        (s', Ok (infos ++ zip_with render_table names tables))
    | (s', Raise e) => (s', Raise e)
    end.
Proof.
  induction names as [|name rest IH]; intros infos s.
  { cbn. unfold ret. by rewrite app_nil_r. }
  cbn [get_table_info_loop lookup_columns]. unfold bind at 1 2.
  destruct (external (inspector_get_columns db name) s)
    as [s1 [cols|e]]; [|done].
  rewrite IH. unfold bind.
  destruct (lookup_columns db rest s1) as [s2 [tables|e]]; [|done].
  unfold ret. cbn [zip_with]. by rewrite <- app_assoc.
Qed.

Lemma lookup_columns_length (db : Engine) (names : list string) :
  forall (s s' : Store) (tables : list (list ColumnInfo)),
    lookup_columns db names s = (s', Ok tables) ->
    length tables = length names.
Proof.
  induction names as [|name rest IH]; intros s s' tables.
  { cbn. unfold ret. intros [= _ <-]. done. }
  cbn [lookup_columns]. unfold bind at 1.
  destruct (external (inspector_get_columns db name) s)
    as [s1 [cols|e]]; [|done].
  unfold bind.
  destruct (lookup_columns db rest s1) as [s2 [more|e]] eqn:Hrest;
    [|done].
  unfold ret. intros [= _ <-]. cbn [length]. f_equal. by eapply IH.
Qed.

(** C10. The describe-schema tool splits its argument on commas, trims
    each segment and drops those that trim to the empty string, before
    any lookup. An argument of commas and whitespace only gives the
    empty text and leaves the store as it was, whatever the lookups
    would have answered. With k names left, the tool looks up these k
    names in order, and when the lookups succeed the text returned is
    k table renderings, one per name, joined by blank lines; a lookup
    that raises makes the tool raise. *)
Theorem describe_schema_names (db : Engine) (table_names : string)
    (s : Store) :
  let names := stripped_names (Py.split "," table_names) in
  names = List.filter Py.truthy (map Py.strip (Py.split "," table_names))
  /\ (only_commas_and_spaces table_names = true ->
      names = []
      /\ InfoTablesTool__run db table_names s = (s, Ok EmptyString))
  /\ InfoTablesTool__run db table_names s =
     match lookup_columns db names s with
     | (s', Ok tables) =>
         (s', Ok (Py.join (Py.nl +:+ Py.nl)
                    (zip_with render_table names tables)))
     | (s', Raise e) => (s', Raise e)
     end
  /\ (forall (s' : Store) (tables : list (list ColumnInfo)),
        lookup_columns db names s = (s', Ok tables) ->
        length (zip_with render_table names tables) = length names).
Proof.
  intros names.
  assert (Hrun : InfoTablesTool__run db table_names s =
     match lookup_columns db names s with
     | (s', Ok tables) =>
         (s', Ok (Py.join (Py.nl +:+ Py.nl)
                    (zip_with render_table names tables)))
     | (s', Raise e) => (s', Raise e)
     end).
  { unfold InfoTablesTool__run, get_table_info. fold names.
    unfold bind. rewrite get_table_info_loop_eq.
    by destruct (lookup_columns db names s) as [s' [tables|e]]. }
  split; [apply stripped_names_filter|].
  split.
  { intros Honly.
    assert (Hnames : names = []).
    { apply stripped_names_all_space.
      by apply split_only_commas_and_spaces. }
    split; [done|]. rewrite Hrun, Hnames. reflexivity. }
  split; [exact Hrun|].
  intros s' tables Hlookup.
  rewrite length_zip_with.
  rewrite (lookup_columns_length _ _ _ _ _ Hlookup). lia.
Qed.

(** *** The direct SQL boundary *)

Lemma startswith_lower (p text : string) :
  Py.startswith p text = true ->
  Py.startswith (Py.lower p) (Py.lower text) = true.
Proof.
  revert text. induction p as [|a p IH]; intros text; [done|].
  destruct text as [|b text]; [done|]. cbn [Py.startswith Py.lower].
  intros [Hab Hrest]%andb_true_iff.
  apply Ascii.eqb_eq in Hab as ->.
  rewrite Ascii.eqb_refl. by apply IH.
Qed.

Lemma contains_lower (needle text : string) :
  Py.contains needle text = true ->
  Py.contains (Py.lower needle) (Py.lower text) = true.
Proof.
  induction text as [|c text IH].
  { cbn [Py.contains Py.lower]. rewrite !orb_false_r.
    apply (startswith_lower needle EmptyString). }
  cbn [Py.contains]. intros [Hhere|Hlater]%orb_true_iff.
  - apply (startswith_lower needle (String c text)) in Hhere.
    cbn [Py.lower Py.contains] in *. by rewrite Hhere.
  - cbn [Py.lower Py.contains]. rewrite (IH Hlater).
    apply orb_true_r.
Qed.

Lemma execute_sql_handler_eq (e : exn) :
  execute_sql_handler e
  = category_error (error_category (str_exn e)) (str_exn e).
Proof.
  unfold execute_sql_handler, error_category, category_error.
  destruct (Py.contains "no such column" _); [done|].
  by destruct (Py.contains "syntax error" _).
Qed.

(** C7, as amended. When the statement of a direct SQL request fails,
    the error raised is that of the category picked by two substring
    tests on the lowercased message: column-not-found when it holds
    [no such column], else syntax-error when it holds [syntax error],
    else execution-failure. A message that holds one of the two phrases
    as written also holds it once lowercased. Column-not-found and
    syntax-error are both raised with status 400, execution-failure
    with 500; the three message prefixes differ. *)
Theorem sql_errors_are_classified (session_store : SessionStore)
    (session_id sql : string) (for_chart : bool) (engine : Engine)
    (w w' : World) (e : exn) :
  get_engine session_store session_id = Some engine ->
  engine_execute engine sql w = (w', Raise e) ->
  execute_sql session_store session_id sql for_chart w
  = (w', Raise (category_error (error_category (str_exn e)) (str_exn e)))
  /\ (Py.contains "no such column" (str_exn e) = true ->
      error_category (str_exn e) = ColumnNotFound)
  /\ (Py.contains "no such column" (Py.lower (str_exn e)) = false ->
      Py.contains "syntax error" (str_exn e) = true ->
      error_category (str_exn e) = SyntaxError)
  /\ (Py.contains "no such column" (Py.lower (str_exn e)) = false ->
      Py.contains "syntax error" (Py.lower (str_exn e)) = false ->
      error_category (str_exn e) = ExecutionFailure)
  /\ category_status ColumnNotFound = 400%Z
  /\ category_status SyntaxError = 400%Z
  /\ category_status ExecutionFailure = 500%Z
  /\ category_prefix ColumnNotFound <> category_prefix SyntaxError
  /\ category_prefix ColumnNotFound <> category_prefix ExecutionFailure
  /\ category_prefix SyntaxError <> category_prefix ExecutionFailure.
Proof.
  intros Hengine Hexec. split.
  { unfold execute_sql. rewrite Hengine.
    unfold try_except, bind, run_sql. rewrite external_eq.
    change (world (new_store w)) with w. rewrite Hexec. cbn [fst snd].
    unfold raise. cbn [world]. by rewrite execute_sql_handler_eq. }
  unfold error_category. split.
  { intros Hhas. apply (contains_lower "no such column") in Hhas.
    change (Py.lower "no such column") with "no such column" in Hhas.
    by rewrite Hhas. }
  split.
  { intros -> Hhas. apply (contains_lower "syntax error") in Hhas.
    change (Py.lower "syntax error") with "syntax error" in Hhas.
    by rewrite Hhas. }
  split; [by intros -> ->|].
  repeat split; done.
Qed.

(** *** Failures outside the execute-SQL tool *)

(** A describe-schema invocation whose first column lookup raises makes
    the whole execution step raise, whatever invocations follow it. *)
Lemma schema_failure_leaves_step (state : QueryGraphState)
    (m : BaseMessage) (tool_call : ToolCall) (rest : list ToolCall)
    (db : Engine) (text name : string) (others : list string)
    (s : Store) (w' : World) (e : exn) :
  last (messages state) = Some m ->
  tool_calls m = tool_call :: rest ->
  tc_name tool_call = "sql_db_schema" ->
  tool_map s = registry db ->
  tc_args tool_call !! "table_names" = Some (JStr text) ->
  stripped_names (Py.split "," text) = name :: others ->
  inspector_get_columns db name (world s) = (w', Raise e) ->
  CallToolNode_run state s = (mkStore w' (tool_map s), Raise e).
Proof.
  intros Hlast Hcalls Hname Hmap Hargs Hnames Hlookup.
  destruct (registry_lookup db) as (_ & Hschema & _).
  unfold CallToolNode_run, last_message. rewrite Hlast.
  unfold bind at 1. unfold ret at 1. rewrite Hcalls.
  unfold bind at 1. cbn [call_tools]. unfold bind at 1.
  unfold call_tool, lookup_tool. unfold bind at 1.
  rewrite Hname, Hmap, Hschema.
  unfold bind at 1.
  unfold InfoTablesTool_get_response, InfoTablesTool_run,
    validate_required. rewrite Hargs. cbn [validate_str].
  unfold bind at 1. unfold bind at 1. unfold of_result at 1.
  unfold InfoTablesTool__run, get_table_info. rewrite Hnames.
  unfold bind at 1. cbn [get_table_info_loop]. unfold bind at 1.
  rewrite external_eq. cbn [world tool_map]. rewrite <- Hmap.
  by rewrite Hlookup.
Qed.

(** A list-tables invocation whose listing raises makes the loop body
    raise as well. *)
Lemma list_tables_failure_leaves_step (state : QueryGraphState)
    (tool_call : ToolCall) (db : Engine) (s : Store) (w' : World) (e : exn)
    (acc : list BaseMessage * list Artifact) :
  tc_name tool_call = "list_sql_tables" ->
  tool_map s = registry db ->
  tc_args tool_call !! "tool_input" = None ->
  inspector_get_table_names db (world s) = (w', Raise e) ->
  call_tool state tool_call acc s = (mkStore w' (tool_map s), Raise e).
Proof.
  intros Hname Hmap Hargs Hlist.
  destruct (registry_lookup db) as (Hlisting & _ & _).
  destruct acc as [output_messages artifacts].
  unfold call_tool, lookup_tool. unfold bind at 1.
  rewrite Hname, Hmap, Hlisting. unfold bind at 1.
  unfold ListTablesTool_run, validate_default. rewrite Hargs.
  unfold bind at 1. unfold of_result at 1.
  unfold get_table_names. rewrite external_eq. cbn [world tool_map].
  rewrite <- Hmap. by rewrite Hlist.
Qed.

End Properties.

(** ** The properties on the sample world *)

Module SampleRuns.
Import Sample.

(** C2 on the sample: a query returning three rows of two values. *)
Lemma execute_sql_success_sample :
  exists (ack : BaseMessage) (run_rows : list (list SqlValue)),
    @CallToolNode_run sample (state_with (ai_calls [select_rows]))
      (store_with [])
    = (store_of (mkWorld [] ["SELECT id, name FROM data"]),
       Ok (state_update [ack]
             [SQL_QUERY_STRING_RESULT "SELECT id, name FROM data" false;
              SQL_QUERY_RUN_RESULT ["id"; "name"] run_rows false None]))
    /\ length run_rows = 3
    /\ Forall (fun r => length r = 2) run_rows.
Proof.
  destruct (@execute_sql_success_appends sample
              (state_with (ai_calls [select_rows])) select_rows db7
              "SELECT id, name FROM data" false (store_with [])
              (mkWorld [] ["SELECT id, name FROM data"])
              ["id"; "name"]
              [[SqlInteger 1; SqlText "ann"]; [SqlInteger 2; SqlText "bob"];
               [SqlInteger 3; SqlNull]] 3 2 [] [])
    as (ack & run_rows & _ & Hstep & _ & _ & _ & Hn & Hm);
    [reflexivity | reflexivity | reflexivity | reflexivity | reflexivity
    | reflexivity | repeat constructor |].
  exists ack, run_rows. split; [|split; [exact Hn | exact Hm]].
  exact (Hstep (ai_calls [select_rows]) eq_refl eq_refl).
Defined.

(** C3 on the sample: a query on a column that does not exist. *)
Lemma execute_sql_failure_sample :
  exists (err : BaseMessage),
    @superstep sample build_graph CallToolNode_name
      (state_with (ai_calls [select_nope])) (store_with [])
    = (store_of (mkWorld [] ["SELECT nope FROM data"]),
       Ok ((CallToolNode_name,
            state_update [err]
              [SQL_QUERY_STRING_RESULT "SELECT nope FROM data" false]),
           fold_update (state_with (ai_calls [select_nope]))
             (state_update [err]
                [SQL_QUERY_STRING_RESULT "SELECT nope FROM data" false]),
           CallModelNode_name))
    /\ content err
       = "ERROR: (sqlite3.OperationalError) no such column: nope".
Proof.
  destruct (@execute_sql_failure_appends sample
              (state_with (ai_calls [select_nope])) select_nope db7
              "SELECT nope FROM data" false (store_with [])
              (mkWorld [] ["SELECT nope FROM data"])
              (DatabaseError
                 "(sqlite3.OperationalError) no such column: nope") [] [])
    as (err & new_artifacts & _ & -> & _ & _ & _ & Hcontent & _ & Hstep);
    [reflexivity | reflexivity | reflexivity | reflexivity | reflexivity |].
  exists err. split; [|exact Hcontent].
  exact (Hstep (ai_calls [select_nope]) eq_refl eq_refl).
Defined.

(** C1 on the sample: a message with the entry and an invocation, as
    the chat client makes them. *)
Lemma plan_act_transition_sample :
  @next_node sample build_graph CallModelNode_name
    (state_with (ai_calls [select_rows])) (store_with [])
  = (store_with [], Ok CallToolNode_name)
  /\ @next_node sample build_graph CallToolNode_name
       (state_with (ai_calls [select_rows])) (store_with [])
     = (store_with [], Ok CallModelNode_name).
Proof.
  destruct (@plan_act_transition_rule sample
              (state_with (ai_calls [select_rows]))
              (ai_calls [select_rows]) (store_with []) eq_refl)
    as (_ & _ & Hplan & _ & _ & Hact & _).
  split; [exact Hplan | exact Hact].
Defined.

(** C1, the rule as worded fails. A message whose extras hold the
    [tool_calls] payload of the provider, none of which was read into an
    invocation, carries no invocation and is followed by the execution
    node; a message that carries an invocation and has no such entry is
    followed by [END], and its invocation is never run. *)
Lemma transition_reads_the_entry :
  carries_tool_invocations ai_entry_only = false
  /\ @next_node sample build_graph CallModelNode_name
       (state_with ai_entry_only) (store_with [])
     = (store_with [], Ok CallToolNode_name)
  /\ carries_tool_invocations ai_invocation_only = true
  /\ @next_node sample build_graph CallModelNode_name
       (state_with ai_invocation_only) (store_with [])
     = (store_with [], Ok END).
Proof. repeat split. Qed.

(** C5 at a failing input: a registered session and a chat model whose
    first answer carries no tool invocation. [QueryGraphService(engine)]
    raises in the constructor of its toolkit, which assigns an attribute
    the model class does not declare: the request fails before the
    streaming response exists, and there is no [END] event where the
    claim has exactly one. A service that was there would not get
    further: its first planning step raises at [get_tools], before the
    model is asked (the script of the model is untouched), and its
    stream has no event. *)
Theorem registered_session_query_raises :
  get_engine sessions "s1" = Some db7
  /\ @query sample sessions "s1" "how many rows?" true
     = Raise (ValueError
                (no_field_text "SQLDatabaseToolkit" "tool_map"))
  /\ response_events (@query sample sessions "s1" "how many rows?" true)
       25 (mkWorld [Ok (ai_answer "three")] [])
     = []
  /\ @CallModelNode_run sample
       (initial_state service "how many rows?" (QueryOptions_new true))
       (store_with [Ok (ai_answer "three")])
     = (store_with [Ok (ai_answer "three")],
        Raise (ValueError
                 (no_field_text "SQLDatabaseToolkit" "tool_map")))
  /\ @stream sample service "how many rows?" true 25
       (mkWorld [Ok (ai_answer "three")] [])
     = (mkWorld [Ok (ai_answer "three")] [],
        ([], Aborted (ValueError
                        (no_field_text "SQLDatabaseToolkit" "tool_map")))).
Proof. repeat split. Qed.

(** C6 on the sample: a session identifier that was never registered. *)
Lemma unknown_session_sample :
  @query sample sessions "s2" "how many rows?" true
  = Raise (RuntimeError "Invalid session_id. Upload CSV first.").
Proof.
  exact (proj1 (@unknown_session_fails_before_events sample sessions "s2"
                  "how many rows?" true eq_refl)).
Defined.

(** C7 on the sample: a failing statement of each category. *)
Lemma sql_errors_sample :
  @execute_sql sample sessions "s1" "SELECT nope FROM data" false
    (mkWorld [] [])
  = (mkWorld [] ["SELECT nope FROM data"],
     Raise (HTTPException 400
              ("SQL Error: Column not found. "
               +:+ "(sqlite3.OperationalError) no such column: nope"))).
Proof.
  exact (proj1 (@sql_errors_are_classified sample sessions "s1"
                  "SELECT nope FROM data" false db7 (mkWorld [] [])
                  (mkWorld [] ["SELECT nope FROM data"])
                  (DatabaseError
                     "(sqlite3.OperationalError) no such column: nope")
                  eq_refl eq_refl)).
Defined.

(** C7, the rule as worded fails: the statement names a missing table,
    and its text, which the engine quotes in the message, spells
    NO SUCH COLUMN in capitals. The message holds neither phrase as
    written, so the worded rule files it under execution-failure; the
    code raises the column-not-found error. And column-not-found and
    syntax-error do not differ in status. *)
Lemma substring_rule_differs :
  substring_rule no_such_table_text = ExecutionFailure
  /\ @execute_sql sample sessions "s1"
       "SELECT 'NO SUCH COLUMN' FROM missing" false (mkWorld [] [])
     = (mkWorld [] ["SELECT 'NO SUCH COLUMN' FROM missing"],
        Raise (HTTPException 400
                 ("SQL Error: Column not found. " +:+ no_such_table_text)))
  /\ category_status ColumnNotFound = category_status SyntaxError.
Proof. repeat split. Qed.

(** C4 at a failing input: the model asks for the schema of a table
    that does not exist and then for a query. The lookup failure leaves
    the execution step as an exception: no error-bearing tool message
    is made, the query that follows is never executed (the log of
    statements stays empty); the loop ends there with no chunk, and the
    stream of the endpoint ends without an [END] event. *)
Theorem schema_failure_aborts_step :
  @CallToolNode_run sample (state_with schema_then_query) (store_with [])
  = (store_with [], Raise (DatabaseError "nope"))
  /\ @astream_from sample 5 build_graph CallToolNode_name
       (state_with schema_then_query) (store_with [Ok (ai_answer "done")])
     = (store_with [Ok (ai_answer "done")],
        ([], state_with schema_then_query,
         Aborted (DatabaseError "nope")))
  /\ @stream_events sample [] (store_with [Ok (ai_answer "done")])
       (Aborted (DatabaseError "nope"))
     = (store_with [Ok (ai_answer "done")],
        ([], Aborted (DatabaseError "nope"))).
Proof. repeat split. Qed.



(** C10 on the sample: commas and blanks only, then two names among
    blanks. *)
Lemma describe_schema_sample :
  @InfoTablesTool__run sample db7 " , ,, " (store_with [])
  = (store_with [], Ok EmptyString)
  /\ @InfoTablesTool__run sample db7 " data ,, data" (store_with [])
     = (store_with [],
        Ok ("CREATE TABLE data (id BIGINT, name TEXT)" +:+ Py.nl +:+ Py.nl
            +:+ "CREATE TABLE data (id BIGINT, name TEXT)")).
Proof.
  split.
  - exact (proj2 (proj1 (proj2
      (@describe_schema_names sample db7 " , ,, " (store_with [])))
      eq_refl)).
  - exact (proj1 (proj2 (proj2
      (@describe_schema_names sample db7 " data ,, data"
         (store_with []))))).
Defined.

End SampleRuns.

(** ** Further properties of the query path *)

Section Coverage.
Context `{External}.

(** *** The execution step *)

(** What [ExecuteSQLTool.get_response] does, case by case. *)
Lemma ExecuteSQLTool_get_response_cases (db : Engine)
    (state : QueryGraphState) (args : gmap string json) (call_id : string)
    (s : Store) :
  ExecuteSQLTool_get_response db state args call_id s =
  match args !! "query" with
  | None => (s, Raise (KeyError "query"))
  | Some (JStr q) =>
      match validate_default validate_bool "for_chart" false args with
      | Raise e => (s, Raise e)
      | Ok chart =>
          match engine_execute db q (world s) with
          | (w, Ok (cols, rows)) =>
              (mkStore w (tool_map s),
               Ok (state_update
                     [ToolMessage success_text "sql_db_query" call_id]
                     [SQL_QUERY_STRING_RESULT q chart;
                      SQL_QUERY_RUN_RESULT cols rows chart None]))
          | (w, Raise e) =>
              (mkStore w (tool_map s),
               Ok (state_update
                     [ToolMessage ("ERROR: " +:+ str_exn e) "sql_db_query"
                        call_id]
                     [SQL_QUERY_STRING_RESULT q chart]))
          end
      end
  | Some _ => (s, Raise (ValidationError (validation_error_text "sql")))
  end.
Proof.
  destruct (args !! "query") as [v|] eqn:Hq; [|
    by unfold ExecuteSQLTool_get_response, bind, raise; rewrite Hq].
  destruct v as [|b|n|q|raw];
    try (by unfold ExecuteSQLTool_get_response, bind, of_result;
         rewrite Hq).
  destruct (validate_default validate_bool "for_chart" false args)
    as [chart|e] eqn:Hchart.
  { by apply ExecuteSQLTool_get_response_eq. }
  unfold validate_default in Hchart.
  destruct (args !! "for_chart") as [v|] eqn:Hv; [|done].
  unfold ExecuteSQLTool_get_response, bind, of_result. rewrite Hq, Hv.
  cbn [validate_str].
  change (default (JBool false) (Some v)) with v. by rewrite Hchart.
Qed.

Lemma InfoTablesTool_get_response_cases (db : Engine)
    (state : QueryGraphState) (args : gmap string json) (call_id : string)
    (s : Store) :
  InfoTablesTool_get_response db state args call_id s =
  match validate_required validate_str "table_names" args with
  | Raise e => (s, Raise e)
  | Ok text =>
      match InfoTablesTool__run db text s with
      | (s', Ok response) =>
          (s', Ok (state_update
                     [ToolMessage response "sql_db_schema" call_id] []))
      | (s', Raise e) => (s', Raise e)
      end
  end.
Proof.
  unfold InfoTablesTool_get_response, InfoTablesTool_run, bind, of_result.
  destruct (validate_required validate_str "table_names" args)
    as [text|e]; [|done].
  by destruct (InfoTablesTool__run db text s) as [s' [response|e]].
Qed.

Lemma ListTablesTool_run_cases (db : Engine) (args : gmap string json)
    (s : Store) :
  ListTablesTool_run db args s =
  match validate_default validate_str "tool_input" EmptyString args with
  | Raise e => (s, Raise e)
  | Ok _ =>
      (mkStore (fst (inspector_get_table_names db (world s))) (tool_map s),
       snd (inspector_get_table_names db (world s)))
  end.
Proof.
  unfold ListTablesTool_run, bind, of_result, get_table_names.
  destruct (validate_default validate_str "tool_input" EmptyString args);
    [|done].
  apply external_eq.
Qed.

Lemma lookup_columns_keeps_tools (db : Engine) (names : list string) :
  forall s : Store,
    tool_map (fst (lookup_columns db names s)) = tool_map s.
Proof.
  induction names as [|name rest IH]; intros s; [done|].
  cbn [lookup_columns]. unfold bind at 1. rewrite external_eq.
  destruct (snd (inspector_get_columns db name (world s))); [|done].
  unfold bind.
  specialize (IH (mkStore (fst (inspector_get_columns db name (world s)))
                    (tool_map s))).
  by destruct (lookup_columns db rest _) as [s2 [more|e]].
Qed.

Lemma InfoTablesTool__run_keeps_tools (db : Engine) (text : string)
    (s : Store) :
  tool_map (fst (InfoTablesTool__run db text s)) = tool_map s.
Proof.
  unfold InfoTablesTool__run, get_table_info, bind.
  rewrite get_table_info_loop_eq.
  pose proof (lookup_columns_keeps_tools db
                (stripped_names (Py.split "," text)) s) as Hkeep.
  by destruct (lookup_columns db _ s) as [s' [tables|e]].
Qed.

Lemma registry_lookup_name (db : Engine) (name : string) (t : Tool) :
  registry db !! name = Some t ->
  tool_name t = name
  /\ (t = ListTablesTool db \/ t = InfoTablesTool db
      \/ t = ExecuteSQLTool db).
Proof.
  unfold registry; cbn [foldl tool_name].
  rewrite !lookup_insert, lookup_empty.
  repeat case_decide; subst; intros [= <-]; cbn; tauto.
Qed.

(** One pass of the loop body, from empty lists: the store it leaves keeps
    the tool map, and a pass that returns has made exactly one message,
    the answer to the invocation, and at most two artifacts. *)
Lemma call_tool_outcome (state : QueryGraphState) (tool_call : ToolCall)
    (s : Store) :
  tool_map (fst (call_tool state tool_call ([], []) s)) = tool_map s
  /\ forall new_messages new_artifacts,
       snd (call_tool state tool_call ([], []) s)
       = Ok (new_messages, new_artifacts) ->
       (exists m, new_messages = [m] /\ answers tool_call m)
       /\ length new_artifacts <= 2.
Proof.
  unfold call_tool, lookup_tool, bind, ret.
  destruct (tool_map s !! tc_name tool_call) as [[db|db|db]|];
    [| | |by split].
  - rewrite ListTablesTool_run_cases.
    destruct (validate_default validate_str "tool_input" EmptyString _);
      [|by split].
    destruct (inspector_get_table_names db (world s)) as [w [names|e]];
      cbn [fst snd tool_map]; [|by split].
    split; [done|]. intros ? ? [= <- <-].
    split; [|cbn; lia]. eexists. split; [reflexivity|]. by split.
  - rewrite InfoTablesTool_get_response_cases.
    destruct (validate_required validate_str "table_names" _)
      as [text|e]; [|by split].
    pose proof (InfoTablesTool__run_keeps_tools db text s) as Hkeep.
    destruct (InfoTablesTool__run db text s) as [s' [response|e]];
      cbn [fst snd] in *; [|by split].
    split; [done|]. intros ? ? [= <- <-].
    split; [|cbn; lia]. eexists. split; [reflexivity|]. by split.
  - rewrite ExecuteSQLTool_get_response_cases.
    destruct (tc_args tool_call !! "query") as [[|b|n|q|raw]|];
      try (by split).
    destruct (validate_default validate_bool "for_chart" false _)
      as [chart|e]; [|by split].
    destruct (engine_execute db q (world s)) as [w [[cols rows]|e]];
      cbn [fst snd tool_map].
    all: split; [done|]; intros ? ? [= <- <-].
    all: split; [|cbn; lia]; eexists; split; [reflexivity|]; by split.
Qed.

Lemma call_tools_outcome (state : QueryGraphState) (calls : list ToolCall) :
  forall s : Store,
    tool_map (fst (call_tools state calls ([], []) s)) = tool_map s
    /\ forall output_messages artifacts,
         snd (call_tools state calls ([], []) s)
         = Ok (output_messages, artifacts) ->
         Forall2 answers calls output_messages
         /\ length artifacts <= 2 * length calls.
Proof.
  induction calls as [|tool_call rest IH]; intros s.
  { split; [done|]. cbn. intros ? ? [= <- <-]. split; [constructor|done]. }
  cbn [call_tools]. unfold bind.
  destruct (call_tool_outcome state tool_call s) as [Hkeep Hone].
  destruct (call_tool state tool_call ([], []) s)
    as [s1 [[m1 a1]|e]]; cbn [fst snd] in *; [|by split].
  rewrite call_tools_frame.
  destruct (IH s1) as [Hkeep' Hrest].
  destruct (call_tools state rest ([], []) s1)
    as [s2 [[m2 a2]|e]]; cbn [fst snd] in *; [|split; [congruence|done]].
  split; [congruence|]. intros ? ? [= <- <-].
  destruct (Hone m1 a1 eq_refl) as [(m & -> & Hanswers) Hlen1].
  destruct (Hrest m2 a2 eq_refl) as [Hall Hlen2].
  split; [by constructor|]. rewrite length_app. cbn [length]. lia.
Qed.

(** X3. An invocation that names no tool of the tool map makes the
    execution step raise [KeyError] on that name: the invocations before
    it have run, and their effects on the world stay, but their messages
    and artifacts are lost with the step, and the invocations after it
    never run. *)
Theorem unknown_tool_aborts_step (state : QueryGraphState)
    (m : BaseMessage) (before after : list ToolCall) (tool_call : ToolCall)
    (s s1 : Store) (acc1 : list BaseMessage * list Artifact) :
  last (messages state) = Some m ->
  tool_calls m = before ++ tool_call :: after ->
  call_tools state before ([], []) s = (s1, Ok acc1) ->
  tool_map s !! tc_name tool_call = None ->
  CallToolNode_run state s = (s1, Raise (KeyError (tc_name tool_call))).
Proof.
  intros Hlast Hcalls Hbefore Hunknown.
  rewrite (CallToolNode_run_calls state m s Hlast), Hcalls.
  rewrite call_tools_app, Hbefore. cbn [call_tools].
  destruct (call_tools_outcome state before s) as [Hkeep _].
  rewrite Hbefore in Hkeep; cbn [fst] in Hkeep.
  destruct acc1 as [m1 a1].
  unfold call_tool, lookup_tool, bind.
  by rewrite Hkeep, Hunknown.
Qed.

(** X4. An execution step that returns has answered every invocation of
    the model message: its messages are one tool message per invocation,
    in the order of the invocations, each carrying the identifier of its
    invocation. It has made at most two artifacts per invocation and has
    left the tool map as it was. *)
Theorem step_answers_every_invocation (state : QueryGraphState)
    (m : BaseMessage) (s s' : Store) (update : QueryGraphStateUpdate) :
  last (messages state) = Some m ->
  CallToolNode_run state s = (s', Ok update) ->
  Forall2 answers (tool_calls m) (upd_messages update)
  /\ length (upd_messages update) = length (tool_calls m)
  /\ length (upd_results update) <= 2 * length (tool_calls m)
  /\ tool_map s' = tool_map s.
Proof.
  intros Hlast Hrun.
  rewrite (CallToolNode_run_calls state m s Hlast) in Hrun.
  destruct (call_tools_outcome state (tool_calls m) s) as [Hkeep Hall].
  destruct (call_tools state (tool_calls m) ([], []) s)
    as [s2 [[output_messages artifacts]|e]]; [|done].
  injection Hrun as <- <-. cbn [fst snd] in *.
  destruct (Hall output_messages artifacts eq_refl) as [Hanswers Hlen].
  repeat split; try done.
  symmetry. by eapply Forall2_length.
Qed.

(** X5. The edges of the execution step. On a model message with an
    empty list of invocations it returns the empty update and touches
    nothing, and the graph goes back to the planning node; on a state
    with no message at all, it and the routing condition raise
    [IndexError]. *)
Theorem execution_step_edge_cases (state : QueryGraphState) (s : Store) :
  (forall m : BaseMessage,
     last (messages state) = Some m -> tool_calls m = [] ->
     CallToolNode_run state s = (s, Ok (state_update [] []))
     /\ superstep build_graph CallToolNode_name state s
        = (s, Ok ((CallToolNode_name, state_update [] []),
                  fold_update state (state_update [] []),
                  CallModelNode_name)))
  /\ (messages state = [] ->
      CallToolNode_run state s = (s, Raise IndexError)
      /\ ShouldCallToolCondition_run state s = (s, Raise IndexError)).
Proof.
  split.
  - intros m Hlast Hcalls.
    assert (Hrun : CallToolNode_run state s = (s, Ok (state_update [] []))).
    { rewrite (CallToolNode_run_calls state m s Hlast). by rewrite Hcalls. }
    split; [exact Hrun|]. by rewrite superstep_act, Hrun.
  - intros Hnone.
    unfold CallToolNode_run, ShouldCallToolCondition_run, last_message.
    by rewrite Hnone.
Qed.

(** X6. [execute_sql] on unusable arguments. Without a [query] argument
    the tool raises [KeyError]; with a [query] that is not a string, or
    a [for_chart] that does not read as a boolean, it raises the
    validation error. In each case the error is raised before the [try],
    so it is not turned into an error message, and no statement reaches
    the engine: the store is returned as it was. *)
Theorem execute_sql_rejects_bad_arguments (db : Engine)
    (state : QueryGraphState) (args : gmap string json) (call_id : string)
    (s : Store) :
  (args !! "query" = None ->
   ExecuteSQLTool_get_response db state args call_id s
   = (s, Raise (KeyError "query")))
  /\ (forall v : json,
        args !! "query" = Some v -> (forall q, v <> JStr q) ->
        ExecuteSQLTool_get_response db state args call_id s
        = (s, Raise (ValidationError (validation_error_text "sql"))))
  /\ (forall (q : string) (e : exn),
        args !! "query" = Some (JStr q) ->
        validate_default validate_bool "for_chart" false args = Raise e ->
        ExecuteSQLTool_get_response db state args call_id s
        = (s, Raise e)).
Proof.
  rewrite ExecuteSQLTool_get_response_cases.
  split; [by intros ->|]. split.
  - intros v -> Hnot. destruct v; try done. by destruct (Hnot s0).
  - by intros q e -> ->.
Qed.

(** X7. Only the execute-SQL tool makes artifacts: an execution step run
    with the tool map of a planning step, on a model message none of
    whose invocations names [sql_db_query], returns no artifact. *)
Theorem only_execute_sql_makes_artifacts (state : QueryGraphState)
    (m : BaseMessage) (db : Engine) (s s' : Store)
    (update : QueryGraphStateUpdate) :
  last (messages state) = Some m ->
  tool_map s = registry db ->
  Forall (fun tool_call => tc_name tool_call <> "sql_db_query")
    (tool_calls m) ->
  CallToolNode_run state s = (s', Ok update) ->
  upd_results update = [].
Proof.
  intros Hlast Hmap Hnames Hrun.
  rewrite (CallToolNode_run_calls state m s Hlast) in Hrun.
  assert (Hnone : forall calls s0 s1 output_messages artifacts,
    tool_map s0 = registry db ->
    Forall (fun tool_call => tc_name tool_call <> "sql_db_query") calls ->
    call_tools state calls ([], []) s0
    = (s1, Ok (output_messages, artifacts)) ->
    artifacts = []).
  { clear. induction calls as [|tool_call rest IH];
      intros s0 s1 output_messages artifacts Hmap Hnames.
    { by intros [= _ _ <-]. }
    inversion Hnames as [|? ? Hname Hrest]; subst.
    cbn [call_tools]. unfold bind.
    destruct (call_tool_outcome state tool_call s0) as [Hkeep _].
    assert (Hfirst : forall s2 m1 a1,
      call_tool state tool_call ([], []) s0 = (s2, Ok (m1, a1)) ->
      a1 = []).
    { intros s2 m1 a1. unfold call_tool, lookup_tool, bind, ret.
      rewrite Hmap.
      destruct (registry db !! tc_name tool_call) as [t|] eqn:Ht; [|done].
      destruct (registry_lookup_name db _ _ Ht) as [Hn [-> | [-> | ->]]].
      - rewrite ListTablesTool_run_cases.
        destruct (validate_default _ _ _ _); [|done].
        destruct (snd (inspector_get_table_names db (world s0)));
          [|done].
        by intros [= _ _ <-].
      - rewrite InfoTablesTool_get_response_cases.
        destruct (validate_required _ _ _) as [text|e]; [|done].
        destruct (InfoTablesTool__run db text s0) as [s3 [response|e]];
          [|done].
        by intros [= _ _ <-].
      - cbn in Hn. congruence. }
    destruct (call_tool state tool_call ([], []) s0)
      as [s2 [[m1 a1]|e]] eqn:Hcall; cbn [fst] in *; [|done].
    rewrite call_tools_frame.
    destruct (call_tools state rest ([], []) s2)
      as [s3 [[m2 a2]|e]] eqn:Hcalls; [|done].
    intros [= _ _ <-].
    rewrite (Hfirst s2 m1 a1 eq_refl).
    eapply IH; [|exact Hrest|exact Hcalls]. congruence. }
  destruct (call_tools state (tool_calls m) ([], []) s)
    as [s2 [[output_messages artifacts]|e]] eqn:Hcalls; [|done].
  injection Hrun as <- <-. cbn [upd_results state_update].
  by eapply Hnone.
Qed.

(** *** Strings: strip, split, join and substrings *)

Lemma append_cons (x : ascii) (a b : string) :
  String x a +:+ b = String x (a +:+ b).
Proof. reflexivity. Qed.

Lemma append_assoc (a b c : string) : (a +:+ b) +:+ c = a +:+ (b +:+ c).
Proof.
  induction a as [|x a IH]; [done|]. rewrite !append_cons. by rewrite IH.
Qed.

Lemma append_nil_r (a : string) : a +:+ EmptyString = a.
Proof.
  induction a as [|x a IH]; [done|]. rewrite append_cons. by rewrite IH.
Qed.

Lemma lstrip_fixed (c : ascii) (r : string) :
  Py.is_space c = false -> Py.lstrip (String c r) = String c r.
Proof. intros Hc. cbn [Py.lstrip]. by rewrite Hc. Qed.

Lemma lstrip_head (text : string) :
  Py.lstrip text = EmptyString
  \/ exists c r, Py.lstrip text = String c r /\ Py.is_space c = false.
Proof.
  induction text as [|c r IH]; [by left|]. cbn [Py.lstrip].
  destruct (Py.is_space c) eqn:Hc; [exact IH|]. right. by exists c, r.
Qed.

Lemma rstrip_cons (c : ascii) (r : string) :
  Py.is_space c = false -> Py.rstrip (String c r) = String c (Py.rstrip r).
Proof.
  intros Hc. cbn [Py.rstrip]. rewrite Hc. by destruct (Py.rstrip r).
Qed.

Lemma rstrip_idempotent (text : string) :
  Py.rstrip (Py.rstrip text) = Py.rstrip text.
Proof.
  induction text as [|c r IH]; [done|]. cbn [Py.rstrip].
  destruct (Py.rstrip r) as [|c' r'] eqn:Hr.
  - destruct (Py.is_space c) eqn:Hc; [done|]. cbn [Py.rstrip]. by rewrite Hc.
  - rewrite <- Hr in *. cbn [Py.rstrip]. rewrite IH. by rewrite Hr.
Qed.

Lemma strip_idempotent (text : string) :
  Py.strip (Py.strip text) = Py.strip text.
Proof.
  unfold Py.strip.
  destruct (lstrip_head text) as [->|(c & r & -> & Hc)]; [done|].
  rewrite (rstrip_cons c r Hc), (lstrip_fixed c _ Hc).
  rewrite <- (rstrip_cons c r Hc). apply rstrip_idempotent.
Qed.

Lemma contains_comma_cons (c : ascii) (r : string) :
  Py.contains "," (String c r) = Ascii.eqb "," c || Py.contains "," r.
Proof. cbn [Py.contains Py.startswith]. by rewrite andb_true_r. Qed.

Lemma lstrip_no_comma (text : string) :
  Py.contains "," text = false -> Py.contains "," (Py.lstrip text) = false.
Proof.
  induction text as [|c r IH]; [done|]. intros Hno.
  cbn [Py.lstrip]. destruct (Py.is_space c); [|done].
  rewrite contains_comma_cons in Hno.
  apply orb_false_iff in Hno as [_ Hr]. by apply IH.
Qed.

Lemma rstrip_no_comma (text : string) :
  Py.contains "," text = false -> Py.contains "," (Py.rstrip text) = false.
Proof.
  induction text as [|c r IH]; [done|]. intros Hno.
  rewrite contains_comma_cons in Hno.
  apply orb_false_iff in Hno as [Hc Hr]. specialize (IH Hr).
  cbn [Py.rstrip]. destruct (Py.rstrip r) as [|c' r'].
  - destruct (Py.is_space c); [done|].
    rewrite contains_comma_cons, Hc. done.
  - rewrite contains_comma_cons, Hc. exact IH.
Qed.

Lemma split_no_comma (text : string) :
  Forall (fun t => Py.contains "," t = false) (Py.split "," text).
Proof.
  induction text as [|c r IH]; [by repeat constructor|].
  cbn [Py.split]. destruct (Ascii.eqb c ",") eqn:Hc.
  { by constructor. }
  pose proof (split_not_nil "," r) as Hnil.
  destruct (Py.split "," r) as [|h t]; [done|].
  inversion IH as [|? ? Hh Ht]; subst. constructor; [|done].
  rewrite contains_comma_cons, Hh, Ascii.eqb_sym, Hc. done.
Qed.

Lemma split_one (text : string) :
  Py.contains "," text = false -> Py.split "," text = [text].
Proof.
  induction text as [|c r IH]; [done|]. intros Hno.
  rewrite contains_comma_cons in Hno.
  apply orb_false_iff in Hno as [Hc Hr].
  cbn [Py.split]. rewrite Ascii.eqb_sym, Hc. by rewrite (IH Hr).
Qed.

Lemma split_append_comma (a rest : string) :
  Py.contains "," a = false ->
  Py.split "," (a +:+ "," +:+ rest) = a :: Py.split "," rest.
Proof.
  induction a as [|c a IH]; intros Hno.
  { reflexivity. }
  rewrite contains_comma_cons in Hno.
  apply orb_false_iff in Hno as [Hc Ha].
  rewrite append_cons. cbn [Py.split]. rewrite Ascii.eqb_sym, Hc.
  by rewrite (IH Ha).
Qed.

Lemma clean_name_spec (name : string) :
  clean_name name = true <->
  name <> EmptyString /\ Py.strip name = name
  /\ Py.contains "," name = false.
Proof.
  unfold clean_name. rewrite !andb_true_iff, bool_decide_eq_true,
    negb_true_iff.
  split.
  - intros [[Hne Hstrip] Hno]. repeat split; try done.
    by destruct name.
  - intros (Hne & Hstrip & Hno). repeat split; try done.
    by destruct name.
Qed.

(** X8. Every name the describe-schema tool hands to the adapter is
    clean: not empty, with no blank at either end, and with no comma,
    whatever the argument was. *)
Theorem lookup_names_are_clean (table_names : string) :
  Forall (fun name => clean_name name = true)
    (stripped_names (Py.split "," table_names)).
Proof.
  pose proof (split_no_comma table_names) as Hsegments.
  induction Hsegments as [|t rest Ht _ IH]; [constructor|].
  cbn [stripped_names].
  destruct (Py.truthy (Py.strip t)) eqn:Htruthy; [|exact IH].
  constructor; [|exact IH].
  apply clean_name_spec. split; [by destruct (Py.strip t)|].
  split; [apply strip_idempotent|].
  unfold Py.strip. by apply rstrip_no_comma, lstrip_no_comma.
Qed.

Lemma split_join_names (names : list string) :
  names <> [] ->
  Forall (fun name => Py.contains "," name = false) names ->
  Py.split "," (Py.join "," names) = names.
Proof.
  intros Hne Hno. induction Hno as [|name rest Hname Hrest IH]; [done|].
  destruct rest as [|next rest'].
  { cbn [Py.join]. by apply split_one. }
  change (Py.join "," (name :: next :: rest'))
    with (name +:+ "," +:+ Py.join "," (next :: rest')).
  rewrite (split_append_comma _ _ Hname). by rewrite IH.
Qed.

(** X9. A list of clean names joined by commas is read back by the
    describe-schema tool as that very list: same names, same order, same
    repetitions. *)
Theorem joined_names_are_read_back (names : list string) :
  Forall (fun name => clean_name name = true) names ->
  stripped_names (Py.split "," (Py.join "," names)) = names.
Proof.
  intros Hclean.
  assert (Hkept : stripped_names names = names).
  { induction Hclean as [|name rest Hname _ IH]; [done|].
    apply clean_name_spec in Hname as (Hne & Hstrip & _).
    cbn [stripped_names]. rewrite Hstrip, IH. by destruct name. }
  destruct names as [|name rest]; [done|].
  rewrite split_join_names; [exact Hkept|done|].
  eapply Forall_impl; [exact Hclean|].
  intros n Hn. by apply clean_name_spec in Hn as (_ & _ & Hno).
Qed.

Lemma startswith_append (p rest : string) :
  Py.startswith p (p +:+ rest) = true.
Proof.
  induction p as [|c p IH]; [done|]. rewrite append_cons.
  cbn [Py.startswith]. by rewrite Ascii.eqb_refl, IH.
Qed.

(** A text holds every piece it is put together from. *)
Lemma contains_middle (before piece after : string) :
  Py.contains piece (before +:+ piece +:+ after) = true.
Proof.
  induction before as [|c before IH].
  - change (EmptyString +:+ piece +:+ after) with (piece +:+ after).
    destruct (piece +:+ after) eqn:Hwhole.
    + cbn [Py.contains]. rewrite <- Hwhole, startswith_append. done.
    + cbn [Py.contains]. rewrite <- Hwhole, startswith_append. done.
  - rewrite append_cons. cbn [Py.contains]. rewrite IH. apply orb_true_r.
Qed.

Lemma contains_decompose (piece text : string) :
  Py.startswith piece text = true ->
  exists after, text = piece +:+ after.
Proof.
  revert text. induction piece as [|c piece IH]; intros text.
  { intros _. by exists text. }
  destruct text as [|d text]; [done|]. cbn [Py.startswith].
  intros [Hc Hrest]%andb_true_iff. apply Ascii.eqb_eq in Hc as ->.
  destruct (IH text Hrest) as [after ->]. by exists after.
Qed.

Lemma contains_spec (piece text : string) :
  Py.contains piece text = true <->
  exists before after, text = before +:+ piece +:+ after.
Proof.
  split.
  - induction text as [|c text IH]; cbn [Py.contains].
    + rewrite orb_false_r. intros Hstart.
      destruct (contains_decompose _ _ Hstart) as [after ->].
      by exists EmptyString, after.
    + intros [Hstart|Hlater]%orb_true_iff.
      * destruct (contains_decompose _ _ Hstart) as [after ->].
        by exists EmptyString, after.
      * destruct (IH Hlater) as (before & after & ->).
        by exists (String c before), after.
  - intros (before & after & ->). apply contains_middle.
Qed.

Lemma contains_trans (a b c : string) :
  Py.contains a b = true -> Py.contains b c = true ->
  Py.contains a c = true.
Proof.
  intros (b1 & b2 & ->)%contains_spec (c1 & c2 & ->)%contains_spec.
  apply contains_spec. exists (c1 +:+ b1), (b2 +:+ c2).
  by rewrite !append_assoc.
Qed.

Lemma join_contains (sep piece : string) (pieces : list string) :
  piece ∈ pieces -> Py.contains piece (Py.join sep pieces) = true.
Proof.
  induction pieces as [|x rest IH]; [by intros ?%elem_of_nil|].
  intros Hin. apply contains_spec.
  destruct rest as [|y rest'].
  { apply list_elem_of_singleton in Hin as ->.
    exists EmptyString, EmptyString. cbn [Py.join].
    by rewrite append_nil_r. }
  change (Py.join sep (x :: y :: rest'))
    with (x +:+ sep +:+ Py.join sep (y :: rest')).
  apply elem_of_cons in Hin as [->|Hin].
  { by exists EmptyString, (sep +:+ Py.join sep (y :: rest')). }
  apply IH, contains_spec in Hin as (before & after & ->).
  exists (x +:+ sep +:+ before), after. by rewrite !append_assoc.
Qed.

Lemma render_table_contains (name : string) (cols : list ColumnInfo)
    (c : ColumnInfo) :
  c ∈ cols ->
  Py.contains (render_column c) (render_table name cols) = true.
Proof.
  intros Hin. unfold render_table.
  assert (Hjoin : Py.contains (render_column c)
                    (Py.join ", " (map render_column cols)) = true).
  { apply join_contains. by apply list_elem_of_fmap_2. }
  eapply contains_trans; [exact Hjoin|].
  apply contains_spec. exists ("CREATE TABLE " +:+ name +:+ " ("), ")".
  by rewrite !append_assoc.
Qed.

(** X10. The schema text lists what was looked up: when the column
    lookups for the names succeed, [get_table_info] returns the
    renderings of the tables, one per name and in the order of the
    names, joined by blank lines (two line feeds, nothing before the
    first or after the last); the rendering of a name is its
    [CREATE TABLE] heading, its columns and a closing parenthesis, and
    the text holds, for every name, the heading and, for every column
    the inspector gave for it, the column's name followed by its type. *)
Theorem schema_text_lists_every_column (db : Engine) (names : list string)
    (s s' : Store) (tables : list (list ColumnInfo)) :
  lookup_columns db names s = (s', Ok tables) ->
  get_table_info db names s
  = (s', Ok (Py.join (Py.nl +:+ Py.nl)
               (zip_with render_table names tables)))
  /\ length (zip_with render_table names tables) = length names
  /\ forall (i : nat) (name : string) (cols : list ColumnInfo),
       names !! i = Some name -> tables !! i = Some cols ->
       zip_with render_table names tables !! i
       = Some ("CREATE TABLE " +:+ name +:+ " ("
               +:+ Py.join ", " (map render_column cols) +:+ ")")
       /\ Py.contains ("CREATE TABLE " +:+ name +:+ " (")
            (Py.join (Py.nl +:+ Py.nl)
               (zip_with render_table names tables)) = true
       /\ forall c : ColumnInfo,
            c ∈ cols ->
            Py.contains
              (col_name c +:+ " " +:+ Py.str_opt (col_type c))
              (Py.join (Py.nl +:+ Py.nl)
                 (zip_with render_table names tables))
            = true.
Proof.
  intros Hlookup.
  split.
  { unfold get_table_info, bind. rewrite get_table_info_loop_eq, Hlookup.
    reflexivity. }
  split.
  { rewrite length_zip_with.
    rewrite (lookup_columns_length _ _ _ _ _ Hlookup). lia. }
  intros i name cols Hname Hcols.
  assert (Hith : zip_with render_table names tables !! i
                 = Some (render_table name cols)).
  { by rewrite lookup_zip_with, Hname, Hcols. }
  assert (Hin : render_table name cols
                ∈ zip_with render_table names tables).
  { apply list_elem_of_lookup. by exists i. }
  pose proof (join_contains (Py.nl +:+ Py.nl) _ _ Hin) as Htable.
  split; [exact Hith|]. split.
  - eapply contains_trans; [|exact Htable].
    apply contains_spec. exists EmptyString.
    exists (Py.join ", " (map render_column cols) +:+ ")").
    unfold render_table. by rewrite !append_assoc.
  - intros c Hc. eapply contains_trans; [|exact Htable].
    by apply render_table_contains.
Qed.

(** *** The direct SQL boundary *)

(** X11. The direct SQL endpoint. For an unknown session it raises the
    400 error and no statement reaches an engine; when the statement
    succeeds it answers with the columns and rows of the engine as they
    are and the chart flag it was given; and whatever goes wrong, the
    only exception that leaves it is an HTTP error of status 400 or
    500. *)
Theorem direct_sql_outcomes (session_store : SessionStore)
    (session_id sql : string) (for_chart : bool) (w : World) :
  (get_engine session_store session_id = None ->
   execute_sql session_store session_id sql for_chart w
   = (w, Raise (HTTPException 400 "Invalid session_id. Upload CSV first.")))
  /\ (forall (engine : Engine) (w' : World) (cols : list string)
             (rows : list (list SqlValue)),
        get_engine session_store session_id = Some engine ->
        engine_execute engine sql w = (w', Ok (cols, rows)) ->
        execute_sql session_store session_id sql for_chart w
        = (w', Ok (mkExecuteResponse cols rows for_chart)))
  /\ (forall (w' : World) (e : exn),
        execute_sql session_store session_id sql for_chart w
        = (w', Raise e) ->
        exists (status : Z) (detail : string),
          e = HTTPException status detail
          /\ (status = 400%Z \/ status = 500%Z)).
Proof.
  unfold execute_sql.
  destruct (get_engine session_store session_id) as [engine|].
  - split; [done|]. split.
    + intros ? w' cols rows [= <-] Hexec.
      unfold try_except, bind, run_sql. rewrite external_eq.
      change (world (new_store w)) with w. rewrite Hexec. cbn.
      by rewrite map_id.
    + intros w' e.
      unfold try_except, bind, run_sql. rewrite external_eq.
      change (world (new_store w)) with w.
      destruct (engine_execute engine sql w) as [w1 [[cols rows]|e1]];
        cbn [fst snd]; [done|].
      unfold raise. rewrite execute_sql_handler_eq. cbn [world].
      intros [= _ <-]. unfold category_error.
      eexists _, _. split; [reflexivity|].
      destruct (error_category (str_exn e1)); cbn; tauto.
  - split; [done|]. split; [done|].
    intros w' e [= _ <-]. eexists _, _. split; [reflexivity|]. tauto.
Qed.

(** *** The stream of the query endpoint *)

Lemma add_result_events_ok (artifacts : list Artifact) :
  Forall (fun r => serializable r = true) artifacts ->
  add_result_events artifacts = (map add_result artifacts, None).
Proof.
  induction 1 as [|r rest Hr _ IH]; [done|].
  cbn [add_result_events map]. unfold to_sse.
  unfold serializable in Hr. by rewrite Hr, IH.
Qed.

Lemma add_result_events_refused (good rest : list Artifact) (bad : Artifact) :
  Forall (fun r => serializable r = true) good ->
  serializable bad = false ->
  add_result_events (good ++ bad :: rest)
  = (map add_result good,
     Some (TypeError "Object of type bytes is not JSON serializable")).
Proof.
  intros Hgood Hbad.
  induction Hgood as [|r good Hr _ IH].
  { cbn [app add_result_events map]. unfold to_sse.
    unfold serializable in Hbad. by rewrite Hbad. }
  cbn [app add_result_events map]. unfold to_sse.
  unfold serializable in Hr. by rewrite Hr, IH.
Qed.

Lemma result_events_eq
    (item : option (list BaseMessage) * option (list Artifact)) :
  result_events item = add_result_events (default [] (snd item)).
Proof.
  unfold result_events. by destruct (snd item) as [[|r rs]|].
Qed.

Lemma count_add_result (artifacts : list Artifact) :
  count_events "ADD_RESULT" (map add_result artifacts) = length artifacts
  /\ count_events "END" (map add_result artifacts) = 0.
Proof.
  unfold count_events.
  induction artifacts as [|r rest [IH1 IH2]]; [done|].
  cbn [map List.filter sse_event add_result].
  rewrite bool_decide_eq_true_2 by done.
  rewrite bool_decide_eq_false_2 by done.
  cbn [length]. by rewrite IH1, IH2.
Qed.

Lemma stream_events_ok
    (items : Yields (option (list BaseMessage) * option (list Artifact)))
    (s : Store) (ending : Ending) :
  Forall (fun r => serializable r = true) (yielded_artifacts items) ->
  stream_events items s ending
  = (s, (map add_result (yielded_artifacts items)
         ++ (if is_finished ending then [mkSSE "END" data_ok] else []),
         ending)).
Proof.
  induction items as [|[s_yield item] rest IH]; intros Hall.
  { by destruct ending. }
  unfold yielded_artifacts in *. cbn [map concat fst snd] in *.
  apply Forall_app in Hall as [Hitem Hrest].
  cbn [stream_events].
  rewrite result_events_eq, (add_result_events_ok _ Hitem), (IH Hrest).
  by rewrite map_app, app_assoc.
Qed.

(** X12. The shape of the stream, for whatever the service yields. As
    long as [json.dumps] accepts the artifacts, the events are one
    [ADD_RESULT] per artifact yielded, in order, followed by a single
    [END] when and only when the service returned. The first artifact
    that holds a [bytes] value, which [json.dumps] refuses, ends the
    stream with [TypeError]: the events are those of the artifacts
    before it, there is no [END], and the service is left where it
    yielded, whatever it would have done next. *)
Theorem stream_events_shape
    (items : Yields (option (list BaseMessage) * option (list Artifact)))
    (s : Store) (ending : Ending) :
  (Forall (fun r => serializable r = true) (yielded_artifacts items) ->
   stream_events items s ending
   = (s, (map add_result (yielded_artifacts items)
          ++ (if is_finished ending then [mkSSE "END" data_ok] else []),
          ending))
   /\ count_events "ADD_RESULT" (fst (snd (stream_events items s ending)))
      = length (yielded_artifacts items)
   /\ count_events "END" (fst (snd (stream_events items s ending)))
      = (if is_finished ending then 1 else 0))
  /\ (forall (before after :
                Yields (option (list BaseMessage) * option (list Artifact)))
             (s_yield : Store)
             (item : option (list BaseMessage) * option (list Artifact))
             (good rest : list Artifact) (bad : Artifact),
        items = before ++ (s_yield, item) :: after ->
        default [] (snd item) = good ++ bad :: rest ->
        Forall (fun r => serializable r = true)
          (yielded_artifacts before ++ good) ->
        serializable bad = false ->
        stream_events items s ending
        = (s_yield,
           (map add_result (yielded_artifacts before ++ good),
            Aborted
              (TypeError "Object of type bytes is not JSON serializable")))
        /\ count_events "END" (fst (snd (stream_events items s ending)))
           = 0).
Proof.
  split.
  - intros Hall. rewrite (stream_events_ok _ _ _ Hall). cbn [fst snd].
    split; [done|].
    unfold count_events. rewrite !List.filter_app, !length_app.
    fold (count_events "ADD_RESULT"
            (map add_result (yielded_artifacts items))).
    fold (count_events "END" (map add_result (yielded_artifacts items))).
    destruct (count_add_result (yielded_artifacts items)) as [-> ->].
    by destruct ending.
  - intros before after s_yield item good rest bad -> Hitem Hgood Hbad.
    apply Forall_app in Hgood as [Hbefore Hgood].
    assert (Hrun :
      stream_events (before ++ (s_yield, item) :: after) s ending
      = (s_yield,
         (map add_result (yielded_artifacts before ++ good),
          Aborted
            (TypeError "Object of type bytes is not JSON serializable")))).
    { clear -Hitem Hbefore Hgood Hbad.
      induction before as [|[s0 item0] before IH].
      { cbn [app stream_events].
        rewrite result_events_eq, Hitem.
        by rewrite (add_result_events_refused _ _ _ Hgood Hbad). }
      unfold yielded_artifacts in Hbefore |- *.
      cbn [map concat fst snd] in Hbefore |- *.
      apply Forall_app in Hbefore as [Hitem0 Hbefore].
      cbn [app stream_events].
      rewrite result_events_eq, (add_result_events_ok _ Hitem0).
      unfold yielded_artifacts in IH. rewrite (IH Hbefore).
      by rewrite <- (app_assoc (default [] (snd item0))), !map_app. }
    rewrite Hrun. split; [done|]. cbn [fst snd].
    apply count_add_result.
Qed.

(** X14. A planning step never reaches the chat model. [get_tools]
    builds its tools and then assigns [self.tool_map], which the toolkit
    class does not declare: it raises [ValueError] and leaves the store
    as it was. So the planning step raises before [invoke], with the
    exception of the chat client if that cannot be built and this
    [ValueError] otherwise, and the world is untouched; a run of the loop
    entered at the planning node ends there without a chunk. *)
Theorem planning_never_reaches_model (state : QueryGraphState) (s : Store) :
  (forall (self : SQLDatabaseToolkit) (allow_execution : bool),
     get_tools self allow_execution s
     = (s, Raise (ValueError
                    (no_field_text "SQLDatabaseToolkit" "tool_map"))))
  /\ CallModelNode_run state s = (s, Raise (planning_error state))
  /\ (chat_client
        (mkChatOpenAI (llm_model (options state))
           (openai_base_url (options state))
           (openai_api_key (options state)) 0) = Ok tt ->
      planning_error state
      = ValueError (no_field_text "SQLDatabaseToolkit" "tool_map"))
  /\ (forall e : exn,
        chat_client
          (mkChatOpenAI (llm_model (options state))
             (openai_base_url (options state))
             (openai_api_key (options state)) 0) = Raise e ->
        planning_error state = e)
  /\ forall fuel : nat,
       astream_from (S fuel) build_graph CallModelNode_name state s
       = (s, ([], state, Aborted (planning_error state))).
Proof.
  split; [intros; apply get_tools_eq|].
  split; [apply CallModelNode_run_eq|].
  unfold planning_error, ChatOpenAI_new.
  split; [by intros ->|]. split; [by intros e ->|].
  intros fuel. apply astream_from_plan.
Qed.


End Coverage.

(** ** Properties of the ingestion endpoints *)

Section IngestionProperties.
Context `{Ingestion}.

Lemma outside_eq {A} (op : World -> World * result A) (a : App) :
  outside op a = (mkApp (fst (op (app_world a))) (session_store a),
                  snd (op (app_world a))).
Proof. unfold outside. by destruct (op (app_world a)). Qed.

Lemma reraise_as_http_cases {A} (prefix : string) (body : M App A)
    (a : App) :
  reraise_as_http prefix body a =
  match body a with
  | (a', Ok x) => (a', Ok x)
  | (a', Raise e) =>
      (a', Raise (if is_http_exception e then e
                  else HTTPException 500 (prefix +:+ str_exn e)))
  end.
Proof.
  unfold reraise_as_http, try_except.
  destruct (body a) as [a' [x|e]]; [done|]. by destruct e.
Qed.

(** The shared tail leaves the registry alone unless it answers, and then
    it has added the session it reports. *)
Lemma store_frame_registry (df : DataFrame) (empty_detail : string)
    (a : App) :
  match store_frame df empty_detail a with
  | (after, Raise e) => session_store after = session_store a
  | (after, Ok response) =>
      exists engine : Engine,
        session_store after
        = add_session (session_store a) (resp_session_id response) engine
  end.
Proof.
  unfold store_frame. destruct (df_empty df); [done|].
  unfold bind, of_result, register_session, ret.
  destruct (df_strip_columns df) as [df1|e]; [|done].
  destruct (df_where_notnull df1) as [df2|e]; [|done].
  rewrite outside_eq. cbn [fst snd app_world session_store].
  destruct (uuid4 (app_world a)) as [w1 session_id]. cbn [fst snd].
  rewrite outside_eq. cbn [fst snd app_world session_store].
  destruct (make_sessions_dir w1) as [w2 [temp_dir|e]]; [|done].
  cbn [fst snd]. rewrite outside_eq. cbn [fst snd app_world session_store].
  destruct (create_engine _ w2) as [w3 [engine|e]]; [|done].
  cbn [fst snd]. rewrite outside_eq. cbn [fst snd app_world session_store].
  destruct (df_to_sql df2 "data" engine w3) as [w4 [[]|e]]; [|done].
  cbn [fst snd app_world session_store]. by exists engine.
Qed.

Lemma reraise_registry (prefix : string) (body : M App SessionResponse)
    (a : App) :
  match body a with
  | (after, Raise e) => session_store after = session_store a
  | (after, Ok response) =>
      exists engine : Engine,
        session_store after
        = add_session (session_store a) (resp_session_id response) engine
  end ->
  registry_effect a (reraise_as_http prefix body a).
Proof.
  rewrite reraise_as_http_cases. unfold registry_effect.
  destruct (body a) as [after [response|e]]; [done|].
  intros ->. split; [done|]. by destruct e.
Qed.

(** X16. Both ingestion endpoints treat the session registry alike: a
    request that ends in an exception leaves the registry exactly as it
    was, and that exception is an HTTP error; a request that is answered
    has added one session, under the identifier in the answer, which is
    then found with its engine while every other identifier is
    untouched. *)
Theorem ingestion_registry_effect (request : Records) (file : UploadFile)
    (a : App) :
  registry_effect a (load_data request a)
  /\ registry_effect a (upload_csv file a)
  /\ forall (after : App) (response : SessionResponse),
       load_data request a = (after, Ok response)
       \/ upload_csv file a = (after, Ok response) ->
       is_Some (get_engine (session_store after) (resp_session_id response))
       /\ forall other : string,
            other <> resp_session_id response ->
            get_engine (session_store after) other
            = get_engine (session_store a) other.
Proof.
  assert (Hload : registry_effect a (load_data request a)).
  { unfold load_data. apply reraise_registry. unfold bind, of_result.
    destruct (pd_DataFrame request) as [df|e]; [|done].
    apply store_frame_registry. }
  assert (Hupload : registry_effect a (upload_csv file a)).
  { unfold upload_csv. apply reraise_registry. unfold bind, of_result.
    rewrite outside_eq.
    destruct (file_read file (app_world a)) as [w1 [content|e]];
      cbn [fst snd]; [|done].
    destruct (parse_upload content) as [df|e]; [|done].
    apply (store_frame_registry df "CSV file is empty"
             (mkApp w1 (session_store a))). }
  split; [exact Hload|]. split; [exact Hupload|].
  intros after response Hanswer.
  assert (Hadded : exists engine : Engine,
    session_store after
    = add_session (session_store a) (resp_session_id response) engine).
  { destruct Hanswer as [Heq|Heq].
    - by rewrite Heq in Hload.
    - by rewrite Heq in Hupload. }
  destruct Hadded as [engine ->]. split.
  - exists engine. unfold get_engine, add_session; cbn [_engines].
    apply lookup_insert_eq.
  - intros other Hother. unfold get_engine, add_session; cbn [_engines].
    by apply lookup_insert_ne.
Qed.

(** X17. Loading records that make an empty frame raises the 400 error
    [Data is empty] before anything is created: the world and the
    registry are as they were. Records pandas cannot make a frame of
    raise the 500 error that quotes the text of the failure. *)
Theorem load_data_rejects_early (request : Records) (a : App) :
  (forall df : DataFrame,
     pd_DataFrame request = Ok df -> df_empty df = true ->
     load_data request a = (a, Raise (HTTPException 400 "Data is empty")))
  /\ (forall e : exn,
        pd_DataFrame request = Raise e -> is_http_exception e = false ->
        load_data request a
        = (a, Raise (HTTPException 500
                       ("Data loading failed: " +:+ str_exn e)))).
Proof.
  split.
  - intros df Hdf Hempty. unfold load_data.
    rewrite reraise_as_http_cases. unfold bind, of_result, store_frame.
    by rewrite Hdf, Hempty.
  - intros e Hdf Hnot. unfold load_data.
    rewrite reraise_as_http_cases. unfold bind, of_result.
    by rewrite Hdf, Hnot.
Qed.

(** X18. The parse fallbacks of an upload are alternatives, not a chain.
    When the UTF-8 parse raises [UnicodeDecodeError] the Latin-1 parse is
    the only other attempt: if it raises too, the upload fails with the
    500 error quoting that failure, whatever the forgiving parse would
    have returned, and no session is created. The forgiving parse is used
    when, and only when, the UTF-8 parse raised another exception. *)
Theorem upload_fallbacks_are_alternatives (file : UploadFile) (a : App)
    (w1 : World) (content : string) :
  file_read file (app_world a) = (w1, Ok content) ->
  (forall (text : string) (e : exn),
     read_csv_utf8 content = RaisedUnicodeDecodeError text ->
     read_csv_latin1 content = Raise e -> is_http_exception e = false ->
     upload_csv file a
     = (mkApp w1 (session_store a),
        Raise (HTTPException 500 ("Upload failed: " +:+ str_exn e))))
  /\ (forall (text : string) (df : DataFrame),
        read_csv_utf8 content = RaisedUnicodeDecodeError text ->
        read_csv_latin1 content = Ok df ->
        upload_csv file a
        = reraise_as_http "Upload failed: "
            (store_frame df "CSV file is empty")
            (mkApp w1 (session_store a)))
  /\ (forall (e0 : exn) (df : DataFrame),
        read_csv_utf8 content = RaisedOther e0 ->
        read_csv_forgiving content = Ok df ->
        upload_csv file a
        = reraise_as_http "Upload failed: "
            (store_frame df "CSV file is empty")
            (mkApp w1 (session_store a)))
  /\ (forall df : DataFrame,
        read_csv_utf8 content = Parsed df ->
        upload_csv file a
        = reraise_as_http "Upload failed: "
            (store_frame df "CSV file is empty")
            (mkApp w1 (session_store a))).
Proof.
  intros Hread.
  assert (Hupload : upload_csv file a =
    match parse_upload content with
    | Ok df =>
        reraise_as_http "Upload failed: "
          (store_frame df "CSV file is empty") (mkApp w1 (session_store a))
    | Raise e =>
        (mkApp w1 (session_store a),
         Raise (if is_http_exception e then e
                else HTTPException 500 ("Upload failed: " +:+ str_exn e)))
    end).
  { unfold upload_csv. rewrite !reraise_as_http_cases.
    unfold bind, of_result. rewrite outside_eq, Hread. cbn [fst snd].
    destruct (parse_upload content) as [df|e]; [|done].
    by rewrite reraise_as_http_cases. }
  rewrite Hupload. unfold parse_upload.
  split; [by intros text e -> -> ->|].
  split; [by intros text df -> ->|].
  split; [by intros e0 df -> ->|].
  by intros df ->.
Qed.

End IngestionProperties.

(** ** Properties of the Jira service *)

Module JiraProperties.
Import Jira.

Lemma ends_with_char_last (c : ascii) (s : string) :
  ends_with_char c (s +:+ String c EmptyString) = true.
Proof.
  induction s as [|a s IH]; [apply Ascii.eqb_refl|].
  rewrite append_cons. cbn [ends_with_char].
  destruct (s +:+ String c EmptyString) eqn:Hs; [by destruct s|].
  exact IH.
Qed.

Lemma drop_last_last (c : ascii) (s : string) :
  drop_last (s +:+ String c EmptyString) = s.
Proof.
  induction s as [|a s IH]; [done|].
  rewrite append_cons. cbn [drop_last].
  destruct (s +:+ String c EmptyString) eqn:Hs; [by destruct s|].
  by rewrite IH.
Qed.

(** X19. Reading a setting from the environment removes one pair of
    double quotes around it and nothing else: a value written between
    quotes gives what stands between them, even when that is quoted
    again; a value that does not both start and end with a quote is kept
    as it is; a missing value stays missing. The value made of a single
    quote character becomes empty. *)
Theorem unquote_removes_one_pair :
  (forall s : string,
     unquote (Some (String double_quote (s +:+ String double_quote
                                                 EmptyString)))
     = Some s)
  /\ (forall s : string,
        starts_with_char double_quote s && ends_with_char double_quote s
        = false ->
        unquote (Some s) = Some s)
  /\ unquote None = None
  /\ unquote (Some (String double_quote EmptyString)) = Some EmptyString.
Proof.
  split.
  { intros s. unfold unquote.
    cbn [Py.truthy starts_with_char slice_1_m1 andb].
    rewrite Ascii.eqb_refl. cbn [andb].
    change (String double_quote (s +:+ String double_quote EmptyString))
      with (String double_quote s +:+ String double_quote EmptyString).
    by rewrite ends_with_char_last, drop_last_last. }
  split.
  { intros s Hnot. unfold unquote. rewrite <- andb_assoc, Hnot.
    by rewrite andb_false_r. }
  split; reflexivity.
Qed.

Section WithSite.
Context `{JiraSite}.

Lemma collect_done_inv {A} (f : jv -> outcome (list A)) (items : list jv)
    (parts : list A) :
  collect f items = Done parts ->
  exists pieces : list (list A),
    Forall2 (fun x piece => f x = Done piece) items pieces
    /\ parts = concat pieces.
Proof.
  revert parts. induction items as [|x rest IH]; intros parts.
  { intros [= <-]. by exists []. }
  cbn [collect]. unfold and_then.
  destruct (f x) as [first|e] eqn:Hx; [|done].
  destruct (collect f rest) as [more|e]; [|done].
  intros [= <-]. destruct (IH more eq_refl) as (pieces & Hall & ->).
  exists (first :: pieces). split; [by constructor|done].
Qed.

Lemma extract_description_stripped (desc : jv) (text : string) :
  extract_description desc = Done text -> Py.strip text = text.
Proof.
  unfold extract_description.
  destruct (truthy desc); cbn [negb]; [|by intros [= <-]].
  destruct desc; try (intros [= <-]; apply strip_idempotent).
  all: unfold and_then.
  all: repeat match goal with
         | |- context [match ?x with Done _ => _ | Failed _ => _ end] =>
             destruct x as [?|?]; [|done]
         end.
  all: intros [= <-]; apply strip_idempotent.
Qed.

(** X20. A description that is returned has no blank at either end. A
    description that is missing, empty or otherwise false gives the empty
    string; a description that is a string gives that string stripped;
    and a document holding no [content] gives the empty string. *)
Theorem description_is_stripped (desc : jv) :
  (forall text : string,
     extract_description desc = Done text -> Py.strip text = text)
  /\ (truthy desc = false -> extract_description desc = Done EmptyString)
  /\ (forall s : string,
        desc = VStr s -> extract_description desc = Done (Py.strip s))
  /\ (forall entries : list (string * jv),
        desc = VDict entries -> truthy desc = true ->
        entry "content" entries = None ->
        extract_description desc = Done EmptyString).
Proof.
  split; [apply extract_description_stripped|].
  split.
  { intros Hfalse. unfold extract_description. by rewrite Hfalse. }
  split.
  { intros s ->. unfold extract_description. by destruct s. }
  intros entries -> Htrue Hnone. unfold extract_description.
  rewrite Htrue. cbn [negb py_in and_then]. by rewrite Hnone.
Qed.

(** The rows are made issue by issue. *)
Lemma rows_of_issues_app (c s t : option string) (issues1 issues2 : list jv) :
  rows_of_issues c s t (issues1 ++ issues2) =
  match rows_of_issues c s t issues1 with
  | Done rows1 =>
      match rows_of_issues c s t issues2 with
      | Done rows2 => Done (rows1 ++ rows2)
      | Failed e => Failed e
      end
  | Failed e => Failed e
  end.
Proof.
  induction issues1 as [|issue rest IH].
  { cbn. by destruct (rows_of_issues c s t issues2). }
  cbn [app rows_of_issues]. unfold and_then.
  destruct (row_of_issue c s t issue) as [row|e]; [|done].
  rewrite IH. destruct (rows_of_issues c s t rest) as [rows1|e]; [|done].
  by destruct (rows_of_issues c s t issues2).
Qed.

(** X21. The rows are all or nothing. When they are returned there is
    one row per issue, in the order of the issues, each the row of its
    issue with a stripped description; and the first issue that cannot
    be read makes the whole list fail with its exception, whatever the
    issues before and after it. *)
Theorem rows_are_all_or_nothing (c s t : option string) (issues : list jv) :
  (forall rows : list Row,
     rows_of_issues c s t issues = Done rows ->
     Forall2 (fun issue row => row_of_issue c s t issue = Done row)
       issues rows
     /\ length rows = length issues
     /\ Forall (fun row => Py.strip (Description row) = Description row)
          rows)
  /\ (forall (before after : list jv) (issue : jv) (rows : list Row)
             (e : PyError),
        issues = before ++ issue :: after ->
        rows_of_issues c s t before = Done rows ->
        row_of_issue c s t issue = Failed e ->
        rows_of_issues c s t issues = Failed e).
Proof.
  split.
  - induction issues as [|issue rest IH]; intros rows.
    { intros [= <-]. by repeat constructor. }
    cbn [rows_of_issues]. unfold and_then.
    destruct (row_of_issue c s t issue) as [row|e] eqn:Hrow; [|done].
    destruct (rows_of_issues c s t rest) as [more|e]; [|done].
    intros [= <-]. destruct (IH more eq_refl) as (Hall & Hlen & Hstrip).
    split; [by constructor|]. split; [cbn; by rewrite Hlen|].
    constructor; [|done].
    revert Hrow. unfold row_of_issue, and_then.
    repeat match goal with
           | |- context [match ?x with Done _ => _ | Failed _ => _ end] =>
               let r := fresh "r" in
               destruct x as [r|?] eqn:?; [|done]
           end.
    intros [= <-]. cbn [Description].
    eapply extract_description_stripped. eassumption.
  - intros before after issue rows e -> Hbefore Hissue.
    rewrite rows_of_issues_app, Hbefore. cbn [rows_of_issues].
    unfold and_then. by rewrite Hissue.
Qed.



(** X23. The paging has no bound of its own. Against a site that answers
    every search request with a page of issues and a token for the next,
    the loop never returns: whatever the step budget, it is still
    paging. *)
Theorem paging_has_no_bound (env : Env) (fields : list string) :
  (forall (token : option string) (net : Net),
     exists (net' : Net) (response : Response) (issue : jv)
            (issues : list jv) (next : string),
       search_request env fields token net = (net', Done response)
       /\ status_code response = 200%Z
       /\ search_json response = Done (issue :: issues, Some next)
       /\ Py.truthy next = true) ->
  forall (fuel : nat) (token : option string) (gathered : list jv)
         (net : Net),
    is_still_paging (snd (fetch_pages fuel env fields token gathered net))
    = true.
Proof.
  intros Hsite fuel.
  induction fuel as [|fuel IH]; intros token gathered net; [done|].
  destruct (Hsite token net)
    as (net' & response & issue & issues & next & Hpost & Hok & Hpage
        & Htoken).
  unfold search_request in Hpost. cbn [fetch_pages].
  rewrite Hpost, Hok, Hpage, Htoken. cbn [negb Z.eqb]. apply IH.
Qed.


End WithSite.

End JiraProperties.

(** ** The further properties on the sample world *)

Module CoverageRuns.
Import Sample.

(** X3 on the sample: the first query runs, the unknown tool ends the
    step, the last query never runs. *)
Lemma unknown_tool_sample :
  @CallToolNode_run sample (state_with query_unknown_query) (store_with [])
  = (store_of (mkWorld [] ["SELECT 1"]), Raise (KeyError "drop_tables")).
Proof.
  eapply (@unknown_tool_aborts_step sample (state_with query_unknown_query)
            query_unknown_query
            [call "sql_db_query" "query" "SELECT 1" "c1"] [select_rows]
            (call "drop_tables" "confirm" "yes" "c2"));
    reflexivity.
Defined.

(** X4 on the sample: three invocations, three answers. *)
Lemma step_answers_sample :
  exists (s' : @Store sample) (update : QueryGraphStateUpdate),
    @CallToolNode_run sample (state_with list_schema_query) (store_with [])
    = (s', Ok update)
    /\ length (upd_messages update) = 3
    /\ map tool_call_id (upd_messages update)
       = [Some "c1"; Some "c2"; Some "c1"].
Proof.
  eexists _, _. split; [reflexivity|].
  split.
  - exact (proj1 (proj2
      (@step_answers_every_invocation sample (state_with list_schema_query)
         list_schema_query (store_with []) _ _ eq_refl eq_refl))).
  - reflexivity.
Defined.

(** X7 on the sample: a listing and a schema request make no artifact. *)
Lemma no_artifacts_sample :
  exists (s' : @Store sample) (update : QueryGraphStateUpdate),
    @CallToolNode_run sample (state_with list_schema) (store_with [])
    = (s', Ok update)
    /\ upd_results update = [].
Proof.
  eexists _, _. split; [reflexivity|].
  eapply (@only_execute_sql_makes_artifacts sample (state_with list_schema)
            list_schema db7 (store_with []));
    [reflexivity | reflexivity | | reflexivity].
  repeat constructor; discriminate.
Defined.

(** X9 on the sample. *)
Lemma joined_names_sample :
  stripped_names ["data"; "order lines"; "data"]
  = ["data"; "order lines"; "data"]
  /\ stripped_names (Py.split "," "data,order lines,data")
     = ["data"; "order lines"; "data"].
Proof.
  split; [reflexivity|].
  apply (joined_names_are_read_back ["data"; "order lines"; "data"]).
  repeat constructor.
Defined.

(** X10 on the sample. *)
Lemma schema_text_sample :
  @get_table_info sample db7 ["data"; "data"] (store_with [])
  = (store_with [],
     Ok ("CREATE TABLE data (id BIGINT, name TEXT)" +:+ Py.nl +:+ Py.nl
         +:+ "CREATE TABLE data (id BIGINT, name TEXT)")).
Proof.
  exact (proj1 (@schema_text_lists_every_column sample db7 ["data"; "data"]
                  (store_with []) (store_with [])
                  [[mkColumn "id" (Some "BIGINT");
                    mkColumn "name" (Some "TEXT")];
                   [mkColumn "id" (Some "BIGINT");
                    mkColumn "name" (Some "TEXT")]] eq_refl)).
Defined.

(** X12 on the sample: a service that yields the artifacts of a query
    whose row holds a BLOB, and would yield more; the stream sends the
    SQL text and ends with [TypeError], leaving the service at its first
    yield. *)
Lemma stream_blob_sample :
  @stream_events sample
    [(store_with [Ok (ai_answer "done")],
      (Some [], Some [earlier_artifact; blob_run; earlier_artifact]));
     (store_with [], (Some [ai_answer "done"], Some []))]
    (store_with []) Finished
  = (store_with [Ok (ai_answer "done")],
     ([add_result earlier_artifact],
      Aborted (TypeError "Object of type bytes is not JSON serializable"))).
Proof.
  exact (proj1 (proj2
    (@stream_events_shape sample
       [(store_with [Ok (ai_answer "done")],
         (Some [], Some [earlier_artifact; blob_run; earlier_artifact]));
        (store_with [], (Some [ai_answer "done"], Some []))]
       (store_with []) Finished)
    [] [(store_with [], (Some [ai_answer "done"], Some []))]
    (store_with [Ok (ai_answer "done")])
    (Some [], Some [earlier_artifact; blob_run; earlier_artifact])
    [earlier_artifact] [earlier_artifact] blob_run
    eq_refl eq_refl ltac:(by repeat constructor) eq_refl)).
Defined.


(** X16 on the sample: one record is loaded and its session is found. *)
Lemma ingestion_registry_sample :
  is_Some
    (@get_engine sample
       (session_store
          (fst (@load_data sample sample_ingestion
                  [[("id", "1"); ("name", "ann")]] sample_app)))
       "0f8fad5b-d9cb-469f-a165-70867728950e").
Proof.
  exact (proj1
    (proj2 (proj2 (@ingestion_registry_effect sample sample_ingestion
                     [[("id", "1"); ("name", "ann")]] "id" sample_app))
       _ (mkSessionResponse "0f8fad5b-d9cb-469f-a165-70867728950e" 1
            ["id"; "name"])
       (or_introl eq_refl))).
Defined.

(** X18 on the sample: bytes that are not UTF-8, and a Latin-1 parse
    that fails. *)
Lemma upload_fallback_sample :
  @upload_csv sample sample_ingestion "caf\xe9" sample_app
  = (sample_app,
     Raise (HTTPException 500
              "Upload failed: No columns to parse from file")).
Proof.
  exact (proj1 (@upload_fallbacks_are_alternatives sample sample_ingestion
                  "caf\xe9" sample_app (mkWorld [] []) "caf\xe9" eq_refl)
           "'utf-8' codec can't decode byte 0xe9"
           (RuntimeError "No columns to parse from file")
           eq_refl eq_refl eq_refl).
Defined.

(** X23 on the sample site that never runs out of pages. *)
Lemma paging_has_no_bound_sample :
  Jira.is_still_paging
    (snd (@Jira.fetch_pages endless_site 7 sample_env ["summary"] None []
            0%nat))
  = true.
Proof.
  apply (@JiraProperties.paging_has_no_bound endless_site sample_env
           ["summary"]).
  intros token net.
  exists (S net), (mkSiteResponse 200 EmptyString [] [sample_issue]
                     (Some "next")), sample_issue, [], "next".
  repeat split.
Defined.

End CoverageRuns.
